(** * OpenClaw security-architecture diagram: a model of the build script

    The repository is one Python script, [diagrams/openclaw_diagram.py].  It
    opens a [Diagram], opens nested [Cluster]s, constructs fifteen icon nodes
    and wires them with the [>>] and [<<] operators of the [diagrams]
    package, which in turn drives a [graphviz.Digraph].

    The script is embedded statement by statement in [Module OpenClaw].  The
    objects and operators it calls are embedded in [Module Diagrams] and
    [Module Graphviz]: explicit state passing over a heap of Python objects,
    with Python exceptions as a second kind of result.  The code of the two
    packages is not among the files of the repository; every definition of
    the two modules names the method it follows.  Tables of the package
    that the script never names (default attribute dictionaries, icon paths,
    cluster colours) are taken as parameters, see [Class Package]. *)

From stdpp Require Import base option list strings gmap.

Open Scope string_scope.
Open Scope list_scope.

(** Python's ["\n"]. *)
Definition nl : string := String (Ascii.ascii_of_nat 10) EmptyString.

(** Python's [str.count("\n")]. *)
Fixpoint count_nl (s : string) : nat :=
  match s with
  | EmptyString => 0
  | String c s' => (if Ascii.eqb c (Ascii.ascii_of_nat 10) then 1 else 0) + count_nl s'
  end.

(** A Python [dict] from strings to strings, kept as the list of the bindings
    written to it, the latest first: [getitem] reads the latest binding of a
    key, [setitem] is [d[k] = v] and [update] is [dict.update], after which
    the entries of [new] hide the ones already there. *)
Abbreviation attrs := (list (string * string)).

Fixpoint getitem (k : string) (d : attrs) : option string :=
  match d with
  | [] => None
  | (k', v) :: d' => if String.eqb k k' then Some v else getitem k d'
  end.

Definition setitem (k v : string) (d : attrs) : attrs := (k, v) :: d.

Definition update (new self : attrs) : attrs := (new ++ self)%list.

(** ** The graphviz package, as far as the script reaches it *)
Module Graphviz.

(** One entry of [Digraph.body].  [Digraph.subgraph(g)] copies the whole of
    [g] (its name, its three attribute dictionaries and its body) into the
    body of the receiver, hence the nesting. *)
#[warnings="-register-all"]
Inductive stmt : Type :=
| SNode (name : string) (a : attrs)
| SEdge (tail_name head_name : string) (a : attrs)
| SSub (name : string) (ga na ea : attrs) (body : list stmt).

Record Digraph : Type := mkDigraph {
  dg_name : string;
  dg_filename : string;
  dg_strict : bool;
  dg_graph_attr : attrs;
  dg_node_attr : attrs;
  dg_edge_attr : attrs;
  dg_body : list stmt
}.

Definition Digraph_new (name filename : string) (strict : bool) : Digraph :=
  mkDigraph name filename strict [] [] [] [].

Definition set_graph_attr (f : attrs → attrs) (g : Digraph) : Digraph :=
  mkDigraph (dg_name g) (dg_filename g) (dg_strict g)
            (f (dg_graph_attr g)) (dg_node_attr g) (dg_edge_attr g) (dg_body g).

Definition set_node_attr (f : attrs → attrs) (g : Digraph) : Digraph :=
  mkDigraph (dg_name g) (dg_filename g) (dg_strict g)
            (dg_graph_attr g) (f (dg_node_attr g)) (dg_edge_attr g) (dg_body g).

Definition set_edge_attr (f : attrs → attrs) (g : Digraph) : Digraph :=
  mkDigraph (dg_name g) (dg_filename g) (dg_strict g)
            (dg_graph_attr g) (dg_node_attr g) (f (dg_edge_attr g)) (dg_body g).

Definition append (s : stmt) (g : Digraph) : Digraph :=
  mkDigraph (dg_name g) (dg_filename g) (dg_strict g)
            (dg_graph_attr g) (dg_node_attr g) (dg_edge_attr g) (dg_body g ++ [s]).

(** [Digraph.node(name, label=label, **attrs)]. *)
Definition node (name label : string) (a : attrs) (g : Digraph) : Digraph :=
  append (SNode name (setitem "label" label a)) g.

(** [Digraph.edge(tail_name, head_name, **attrs)]. *)
Definition edge (tail_name head_name : string) (a : attrs) (g : Digraph) : Digraph :=
  append (SEdge tail_name head_name a) g.

(** [Digraph.subgraph(graph)]. *)
Definition subgraph (sub : Digraph) (g : Digraph) : Digraph :=
  append (SSub (dg_name sub) (dg_graph_attr sub) (dg_node_attr sub) (dg_edge_attr sub) (dg_body sub)) g.

(** *** Reading a body back *)

(** The node statements of a body, at any depth, in order. *)
Fixpoint node_names (s : stmt) : list string :=
  match s with
  | SNode n _ => [n]
  | SEdge _ _ _ => []
  | SSub _ _ _ _ b => flat_map node_names b
  end.

(** The subgraph names of a body, at any depth, in order. *)
Fixpoint sub_names (s : stmt) : list string :=
  match s with
  | SNode _ _ | SEdge _ _ _ => []
  | SSub n _ _ _ b => n :: flat_map sub_names b
  end.

(** The edge statements of a body, at any depth, in order. *)
Fixpoint edge_stmts (s : stmt) : list (string * string * attrs) :=
  match s with
  | SNode _ _ => []
  | SEdge t h a => [(t, h, a)]
  | SSub _ _ _ _ b => flat_map edge_stmts b
  end.

(** The containment pairs [(parent, child)] of a body: [parent] is the name
    of the enclosing subgraph ([None] for the root graph) and [child] is a
    subgraph name ([inl]) or a node name ([inr]). *)
Fixpoint contains_under (p : option string) (s : stmt)
  : list (option string * (string + string)) :=
  match s with
  | SNode n _ => [(p, inr n)]
  | SEdge _ _ _ => []
  | SSub n _ _ _ b => (p, inl n) :: flat_map (contains_under (Some n)) b
  end.

(** *** Graphs up to the names of their nodes

    A node name is a fresh [uuid4] value, so two builds of one description
    differ in them.  [rename] applies a renaming to every node name of a
    statement; two graphs are [equivalent] when a renaming that confuses no
    two names of the first turns it into the second, attributes, subgraph
    names and order included. *)
Fixpoint rename (ρ : string → string) (s : stmt) : stmt :=
  match s with
  | SNode n a => SNode (ρ n) a
  | SEdge t h a => SEdge (ρ t) (ρ h) a
  | SSub n ga na ea b => SSub n ga na ea (map (rename ρ) b)
  end.

Definition rename_graph (ρ : string → string) (g : Digraph) : Digraph :=
  mkDigraph (dg_name g) (dg_filename g) (dg_strict g)
            (dg_graph_attr g) (dg_node_attr g) (dg_edge_attr g) (map (rename ρ) (dg_body g)).

Fixpoint names_in (s : stmt) : list string :=
  match s with
  | SNode n _ => [n]
  | SEdge t h _ => [t; h]
  | SSub _ _ _ _ b => flat_map names_in b
  end.

Definition equivalent (g1 g2 : Digraph) : Prop :=
  ∃ ρ : string → string,
    (∀ x y, x ∈ flat_map names_in (dg_body g1) → y ∈ flat_map names_in (dg_body g1) →
            ρ x = ρ y → x = y)
    ∧ rename_graph ρ g1 = g2.

(** *** Bodies that only grow by edges *)

Definition is_edge (s : stmt) : Prop :=
  match s with
  | SEdge _ _ _ => True
  | SNode _ _ | SSub _ _ _ _ _ => False
  end.

(** The graph [g] with the statements [es] added at the end of its body. *)
Definition extend (es : list stmt) (g : Digraph) : Digraph :=
  mkDigraph (dg_name g) (dg_filename g) (dg_strict g)
            (dg_graph_attr g) (dg_node_attr g) (dg_edge_attr g) (dg_body g ++ es).

End Graphviz.

(** ** The diagrams package: objects, context variables and operators *)
Module Diagrams.
Import Graphviz.

(** The exceptions the calls below can raise.  [DanglingReference] has no
    Python counterpart: a Python reference always reaches its object, so the
    heap lookups of the model never take that branch on a heap they built. *)
Inductive exn : Type :=
| EnvironmentError (msg : string)
| ValueError (msg : string)
| ExecutableNotFound
| FileNotFoundError (path : string)
| NameError (name : string)
| DanglingReference.

(** References to the two kinds of mutable object. *)
Record DiagramRef : Type := DRef { dref : nat }.
Record ClusterRef : Type := CRef { cref : nat }.

(** A node class: the provider and resource type it is imported from and the
    class name ([_provider], [_type], [__name__]); this is the icon category. *)
Record NodeClass : Type := mkNodeClass {
  cls_provider : string;
  cls_type : string;
  cls_name : string
}.

(** [diagrams.Diagram]: [name], [filename], [dot], [outformat], [show],
    [autolabel]. *)
Record Diagram : Type := mkDiagram {
  d_name : string;
  d_filename : string;
  d_dot : Digraph;
  d_outformat : string;
  d_show : bool;
  d_autolabel : bool
}.

(** [diagrams.Cluster]: [label], [name], [dot], [_diagram], [_parent],
    [depth]. *)
Record Cluster : Type := mkCluster {
  c_label : string;
  c_name : string;
  c_dot : Digraph;
  c_diagram : DiagramRef;
  c_parent : option ClusterRef;
  c_depth : nat
}.

(** [diagrams.Node]: its class, [_id], [label], [_attrs], [_diagram],
    [_cluster].  None of the fields is assigned after [__init__]. *)
Record Node : Type := mkNode {
  n_class : NodeClass;
  n_id : string;
  n_label : string;
  n_attrs : attrs;
  n_diagram : DiagramRef;
  n_cluster : option ClusterRef
}.

(** [diagrams.Edge]: [node], [forward], [reverse], [_attrs].  The operators
    assign to these fields and return the same object; every [Edge] of the
    script is written inline in one chain and has no other name, so the model
    passes the updated record along the chain. *)
Record Edge : Type := mkEdge {
  e_node : option Node;
  e_forward : bool;
  e_reverse : bool;
  e_attrs : attrs
}.

(** A file of the working directory: the DOT source graphviz saves, or the
    image its layout engine writes from that source.  The directory maps a
    path to the file there, if any. *)
Inductive file : Type :=
| DotSource (g : Digraph)
| Image (format : string) (g : Digraph).

Definition write_file (path : string) (f : file) (fs : string → option file)
  : string → option file :=
  λ p, if String.eqb p path then Some f else fs p.

Definition remove_file (path : string) (fs : string → option file) : string → option file :=
  λ p, if String.eqb p path then None else fs p.

(** The state a run threads: the heap of [Diagram], [Cluster] and [Node]
    objects, the two context variables of the package ([__diagram] and
    [__cluster]), the module's global names (every name the script assigns
    holds a [Node]), the values [uuid.uuid4().hex] is going to return,
    whether the layout engine is installed, and the working directory. *)
Record world : Type := mkWorld {
  diagrams : list Diagram;
  clusters : list Cluster;
  nodes : list Node;
  ctx_diagram : option DiagramRef;
  ctx_cluster : option ClusterRef;
  globals : gmap string Node;
  entropy : nat → string;
  drawn : nat;
  engine_installed : bool;
  files : string → option file
}.

Definition boot (entropy : nat → string) (engine : bool) (fs : string → option file) : world :=
  mkWorld [] [] [] None None ∅ entropy 0 engine fs.

Definition with_diagrams (f : list Diagram → list Diagram) (w : world) : world :=
  mkWorld (f (diagrams w)) (clusters w) (nodes w) (ctx_diagram w) (ctx_cluster w) (globals w)
          (entropy w) (drawn w) (engine_installed w) (files w).

Definition with_clusters (f : list Cluster → list Cluster) (w : world) : world :=
  mkWorld (diagrams w) (f (clusters w)) (nodes w) (ctx_diagram w) (ctx_cluster w) (globals w)
          (entropy w) (drawn w) (engine_installed w) (files w).

Definition with_nodes (f : list Node → list Node) (w : world) : world :=
  mkWorld (diagrams w) (clusters w) (f (nodes w)) (ctx_diagram w) (ctx_cluster w) (globals w)
          (entropy w) (drawn w) (engine_installed w) (files w).

Definition with_ctx_diagram (d : option DiagramRef) (w : world) : world :=
  mkWorld (diagrams w) (clusters w) (nodes w) d (ctx_cluster w) (globals w)
          (entropy w) (drawn w) (engine_installed w) (files w).

Definition with_ctx_cluster (c : option ClusterRef) (w : world) : world :=
  mkWorld (diagrams w) (clusters w) (nodes w) (ctx_diagram w) c (globals w)
          (entropy w) (drawn w) (engine_installed w) (files w).

Definition with_drawn (n : nat) (w : world) : world :=
  mkWorld (diagrams w) (clusters w) (nodes w) (ctx_diagram w) (ctx_cluster w) (globals w)
          (entropy w) n (engine_installed w) (files w).

Definition with_globals (f : gmap string Node → gmap string Node) (w : world) : world :=
  mkWorld (diagrams w) (clusters w) (nodes w) (ctx_diagram w) (ctx_cluster w) (f (globals w))
          (entropy w) (drawn w) (engine_installed w) (files w).

Definition with_files (f : (string → option file) → string → option file) (w : world) : world :=
  mkWorld (diagrams w) (clusters w) (nodes w) (ctx_diagram w) (ctx_cluster w) (globals w)
          (entropy w) (drawn w) (engine_installed w) (f (files w)).

(** *** The monad of a Python statement: state and exceptions *)

Inductive result (A : Type) : Type :=
| Ok (a : A) (w : world)
| Raise (e : exn) (w : world).
Arguments Ok {A} a w.
Arguments Raise {A} e w.

Definition M (A : Type) : Type := world → result A.

#[export] Instance M_ret : MRet M := λ A a w, Ok a w.

#[export] Instance M_bind : MBind M := λ A B f m w,
  match m w with
  | Ok a w' => f a w'
  | Raise e w' => Raise e w'
  end.

#[export] Instance M_fmap : FMap M := λ A B f m w,
  match m w with
  | Ok a w' => Ok (f a) w'
  | Raise e w' => Raise e w'
  end.

Definition raise {A : Type} (e : exn) : M A := λ w, Raise e w.
Definition gets {A : Type} (f : world → A) : M A := λ w, Ok (f w) w.
Definition modify (f : world → world) : M unit := λ w, Ok tt (f w).

(** The world a run ends in, whether it returned or raised. *)
Definition final {A : Type} (r : result A) : world :=
  match r with Ok _ w | Raise _ w => w end.

Definition returned {A : Type} (r : result A) : option A :=
  match r with Ok a _ => Some a | Raise _ _ => None end.

(** *** What the package supplies and the script never spells out

    The default attribute dictionaries of [Diagram], [Cluster] and [Edge],
    the background colour of a cluster at a given depth
    ([__bgcolors[depth % len(__bgcolors)]]), the path [_load_icon()] returns
    for a node class ([None] for a class without [_icon]) and the text of
    [str(_height + 0.4 * n)] for a label with [n] line breaks.  Nothing below
    depends on their values. *)
Class Package : Type := {
  Diagram_default_graph_attrs : attrs;
  Diagram_default_node_attrs : attrs;
  Diagram_default_edge_attrs : attrs;
  Cluster_default_graph_attrs : attrs;
  Cluster_bgcolor : nat → string;
  Edge_default_attrs : attrs;
  load_icon : NodeClass → option string;
  height_str : nat → string
}.

(** *** Strings: [str.split()], [str.join] and [str.lower] on ASCII text *)

Definition dq : string := String (Ascii.ascii_of_nat 34) EmptyString.

Definition is_space (c : Ascii.ascii) : bool :=
  let n := Ascii.nat_of_ascii c in
  ((9 <=? n) && (n <=? 13) || (28 <=? n) && (n <=? 32))%nat.

Fixpoint words_from (cur : string) (s : string) : list string :=
  match s with
  | EmptyString => if String.eqb cur "" then [] else [cur]
  | String c s' =>
      if is_space c
      then (if String.eqb cur "" then words_from "" s' else cur :: words_from "" s')
      else words_from (cur +:+ String c EmptyString) s'
  end.

Definition split (s : string) : list string := words_from "" s.

Definition join (sep : string) (l : list string) : string :=
  match l with
  | [] => ""
  | x :: r => fold_left (λ acc y, acc +:+ sep +:+ y) r x
  end.

Definition lower_ascii (c : Ascii.ascii) : Ascii.ascii :=
  let n := Ascii.nat_of_ascii c in
  if ((65 <=? n) && (n <=? 90))%nat then Ascii.ascii_of_nat (n + 32) else c.

Fixpoint lower (s : string) : string :=
  match s with
  | EmptyString => EmptyString
  | String c s' => String (lower_ascii c) (lower s')
  end.

Definition member (x : string) (l : list string) : bool := existsb (String.eqb x) l.

Section Operations.
Context `{Package}.

(** *** Context variables and the heap *)

Definition getdiagram : M (option DiagramRef) := gets ctx_diagram.
Definition setdiagram (d : option DiagramRef) : M unit := modify (with_ctx_diagram d).
Definition getcluster : M (option ClusterRef) := gets ctx_cluster.
Definition setcluster (c : option ClusterRef) : M unit := modify (with_ctx_cluster c).

Definition read_diagram (r : DiagramRef) : M Diagram := λ w,
  match diagrams w !! dref r with
  | Some d => Ok d w
  | None => Raise DanglingReference w
  end.

Definition write_diagram (r : DiagramRef) (f : Diagram → Diagram) : M unit :=
  d ← read_diagram r; modify (with_diagrams (<[dref r := f d]>)).

Definition read_cluster (r : ClusterRef) : M Cluster := λ w,
  match clusters w !! cref r with
  | Some c => Ok c w
  | None => Raise DanglingReference w
  end.

Definition write_cluster (r : ClusterRef) (f : Cluster → Cluster) : M unit :=
  c ← read_cluster r; modify (with_clusters (<[cref r := f c]>)).

Definition on_d_dot (f : Digraph → Digraph) (d : Diagram) : Diagram :=
  mkDiagram (d_name d) (d_filename d) (f (d_dot d)) (d_outformat d) (d_show d) (d_autolabel d).

Definition on_c_dot (f : Digraph → Digraph) (c : Cluster) : Cluster :=
  mkCluster (c_label c) (c_name c) (f (c_dot c)) (c_diagram c) (c_parent c) (c_depth c).

(** [uuid.uuid4().hex]: the next value of the run's entropy. *)
Definition uuid4_hex : M string := λ w,
  Ok (entropy w (drawn w)) (with_drawn (S (drawn w)) w).

(** *** [class Diagram] *)

Definition directions : list string := ["TB"; "BT"; "LR"; "RL"].
Definition curvestyles : list string := ["ortho"; "curved"].
Definition outformats : list string := ["png"; "jpg"; "svg"; "pdf"; "dot"].

(** [Diagram.__init__(name, filename, direction, curvestyle, outformat,
    autolabel, show, strict, graph_attr, node_attr, edge_attr)]; the keyword
    defaults are [""], [""], ["LR"], ["ortho"], ["png"], [False], [True],
    [False] and three empty dictionaries.  The script passes [outformat] as
    one string, the list form of the package is outside the type. *)
Definition Diagram_new (name filename direction curvestyle outformat : string)
    (autolabel show strict : bool) (graph_attr node_attr edge_attr : attrs)
  : M DiagramRef :=
  let filename :=
    if String.eqb name "" && String.eqb filename "" then "diagrams_image"
    else if String.eqb filename "" then lower (join "_" (split name))
    else filename in
  let dot := Digraph_new name filename strict in
  let dot := set_graph_attr (update Diagram_default_graph_attrs) dot in
  let dot := set_graph_attr (setitem "label" name) dot in
  let dot := set_node_attr (update Diagram_default_node_attrs) dot in
  let dot := set_edge_attr (update Diagram_default_edge_attrs) dot in
  if negb (member direction directions)
  then raise (ValueError (dq +:+ direction +:+ dq +:+ " is not a valid direction"))
  else
  let dot := set_graph_attr (setitem "rankdir" direction) dot in
  if negb (member curvestyle curvestyles)
  then raise (ValueError (dq +:+ curvestyle +:+ dq +:+ " is not a valid curvestyle"))
  else
  let dot := set_graph_attr (setitem "splines" curvestyle) dot in
  if negb (member outformat outformats)
  then raise (ValueError (dq +:+ outformat +:+ dq +:+ " is not a valid output format"))
  else
  let dot := set_graph_attr (update graph_attr) dot in
  let dot := set_node_attr (update node_attr) dot in
  let dot := set_edge_attr (update edge_attr) dot in
  r ← gets (λ w, DRef (length (diagrams w)));
  modify (with_diagrams (λ l, (l ++ [mkDiagram name filename dot outformat show autolabel])%list)) ;;
  mret r.

(** [Diagram.node], [Diagram.subgraph]. *)
Definition Diagram_node (self : DiagramRef) (nodeid label : string) (a : attrs) : M unit :=
  write_diagram self (on_d_dot (node nodeid label a)).

Definition Diagram_subgraph (self : DiagramRef) (dot : Digraph) : M unit :=
  write_diagram self (on_d_dot (subgraph dot)).

(** [Digraph.render(format=..., view=..., quiet=True)]: the DOT source is
    saved under the graph's file name, then the layout engine writes the
    image next to it, named by the file name and the format.  Opening a
    viewer ([view]) leaves no trace in the model. *)
Definition Digraph_render (g : Digraph) (format : string) (view : bool) : M unit :=
  modify (with_files (write_file (dg_filename g) (DotSource g))) ;;
  installed ← gets engine_installed;
  if (installed : bool)
  then modify (with_files (write_file (dg_filename g +:+ "." +:+ format) (Image format g)))
  else raise ExecutableNotFound.

Definition Diagram_render (self : DiagramRef) : M unit :=
  d ← read_diagram self; Digraph_render (d_dot d) (d_outformat d) (d_show d).

(** [os.remove(path)]. *)
Definition os_remove (path : string) : M unit :=
  present ← gets (λ w, files w path);
  match present with
  | Some _ => modify (with_files (remove_file path))
  | None => raise (FileNotFoundError path)
  end.

Definition Diagram_enter (self : DiagramRef) : M unit := setdiagram (Some self).

Definition Diagram_exit (self : DiagramRef) : M unit :=
  Diagram_render self ;;
  d ← read_diagram self;
  os_remove (d_filename d) ;;
  setdiagram None.

(** *** [class Cluster] *)

(** [Cluster.__init__(label, direction, graph_attr)]; the keyword defaults
    are ["cluster"], ["LR"] and an empty dictionary. *)
Definition Cluster_new (label direction : string) (graph_attr : attrs) : M ClusterRef :=
  let name := "cluster_" +:+ label in
  let dot := Digraph_new name "" false in
  let dot := set_graph_attr (update Cluster_default_graph_attrs) dot in
  let dot := set_graph_attr (setitem "label" label) dot in
  if negb (member direction directions)
  then raise (ValueError (dq +:+ direction +:+ dq +:+ " is not a valid direction"))
  else
  let dot := set_graph_attr (setitem "rankdir" direction) dot in
  d ← getdiagram;
  match d with
  | None => raise (EnvironmentError "Global diagrams context not set up")
  | Some diagram =>
      parent ← getcluster;
      depth ← match parent with
              | Some p => c ← read_cluster p; mret (c_depth c + 1)
              | None => mret 0
              end;
      let dot := set_graph_attr (setitem "bgcolor" (Cluster_bgcolor depth)) dot in
      let dot := set_graph_attr (update graph_attr) dot in
      r ← gets (λ w, CRef (length (clusters w)));
      modify (with_clusters (λ l, (l ++ [mkCluster label name dot diagram parent depth])%list)) ;;
      mret r
  end.

(** [Cluster.node], [Cluster.subgraph]. *)
Definition Cluster_node (self : ClusterRef) (nodeid label : string) (a : attrs) : M unit :=
  write_cluster self (on_c_dot (node nodeid label a)).

Definition Cluster_subgraph (self : ClusterRef) (dot : Digraph) : M unit :=
  write_cluster self (on_c_dot (subgraph dot)).

Definition Cluster_enter (self : ClusterRef) : M unit := setcluster (Some self).

Definition Cluster_exit (self : ClusterRef) : M unit :=
  c ← read_cluster self;
  match c_parent c with
  | Some p => Cluster_subgraph p (c_dot c)
  | None => Diagram_subgraph (c_diagram c) (c_dot c)
  end ;;
  setcluster (c_parent c).

(** *** The [with] statement *)

Class ContextManager (T : Type) : Type := {
  enter : T → M unit;
  exit : T → M unit
}.

#[export] Instance Diagram_cm : ContextManager DiagramRef :=
  {| enter := Diagram_enter; exit := Diagram_exit |}.

#[export] Instance Cluster_cm : ContextManager ClusterRef :=
  {| enter := Cluster_enter; exit := Cluster_exit |}.

(** [with ctor: body].  [__exit__] runs whether the body returns or raises;
    both [__exit__] methods of the package return [None], so an exception of
    the body is raised again after it. *)
Definition With {T : Type} `{ContextManager T} (ctor : M T) (body : M unit) : M unit := λ w,
  match ctor w with
  | Raise e w1 => Raise e w1
  | Ok obj w1 =>
      match enter obj w1 with
      | Raise e w2 => Raise e w2
      | Ok _ w2 =>
          match body w2 with
          | Ok _ w3 => exit obj w3
          | Raise e w3 =>
              match exit obj w3 with
              | Ok _ w4 => Raise e w4
              | Raise e' w4 => Raise e' w4
              end
          end
      end
  end.

(** *** [class Node] *)

(** [Node.__init__(label, nodeid=None, **attrs)] of the class [cls]. *)
Definition Node_new (cls : NodeClass) (label : string) (nodeid : option string) (a : attrs)
  : M Node :=
  id ← match nodeid with
       | Some i => if String.eqb i "" then uuid4_hex else mret i
       | None => uuid4_hex
       end;
  d ← getdiagram;
  match d with
  | None => raise (EnvironmentError "Global diagrams context not set up")
  | Some diagram =>
      dg ← read_diagram diagram;
      let label :=
        if d_autolabel dg
        then (if String.eqb label "" then cls_name cls else cls_name cls +:+ nl +:+ label)
        else label in
      let padding := count_nl label in
      let _attrs : attrs :=
        match load_icon cls with
        | Some image =>
            setitem "image" image (setitem "height" (height_str padding) (setitem "shape" "none" []))
        | None => []
        end in
      let _attrs := update a _attrs in
      cluster ← getcluster;
      match cluster with
      | Some c => Cluster_node c id label _attrs
      | None => Diagram_node diagram id label _attrs
      end ;;
      let self := mkNode cls id label _attrs diagram cluster in
      modify (with_nodes (λ l, (l ++ [self])%list)) ;;
      mret self
  end.

(** *** [class Edge] *)

(** [Edge.__init__(node, forward, reverse, label, color, style, **attrs)]. *)
Definition Edge_new (node : option Node) (forward reverse : bool)
    (label color style : string) (a : attrs) : Edge :=
  let _attrs : attrs := update Edge_default_attrs [] in
  let _attrs := if String.eqb label "" then _attrs else setitem "label" label _attrs in
  let _attrs := if String.eqb color "" then _attrs else setitem "color" color _attrs in
  let _attrs := if String.eqb style "" then _attrs else setitem "style" style _attrs in
  mkEdge node forward reverse (update a _attrs).

(** The property [Edge.attrs]. *)
Definition direction_of (e : Edge) : string :=
  if e_forward e && e_reverse e then "both"
  else if e_forward e then "forward"
  else if e_reverse e then "back"
  else "none".

Definition Edge_attrs (e : Edge) : attrs := setitem "dir" (direction_of e) (e_attrs e).

Definition set_forward (e : Edge) : Edge := mkEdge (e_node e) true (e_reverse e) (e_attrs e).
Definition set_reverse (e : Edge) : Edge := mkEdge (e_node e) (e_forward e) true (e_attrs e).
Definition set_node (n : Node) (e : Edge) : Edge :=
  mkEdge (Some n) (e_forward e) (e_reverse e) (e_attrs e).
Definition set_attrs (a : attrs) (e : Edge) : Edge :=
  mkEdge (e_node e) (e_forward e) (e_reverse e) a.

(** [Diagram.connect(node, node2, edge)]: one [dot.edge] call on the root
    graph, from [node] to [node2]. *)
Definition Diagram_connect (self : DiagramRef) (node node2 : Node) (edge : Edge) : M unit :=
  write_diagram self (on_d_dot (Graphviz.edge (n_id node) (n_id node2) (Edge_attrs edge))).

(** [Node.connect(node, edge)]. *)
Definition Node_connect (self node : Node) (edge : Edge) : M Node :=
  Diagram_connect (n_diagram self) self node edge ;; mret node.

(** *** The operators [>>] and [<<]

    The script applies them to nodes and edges only; the branches of the
    package for a list operand are outside the operand type. *)
Inductive operand : Type :=
| ONode (n : Node)
| OEdge (e : Edge).

(** [Edge.connect(other)]. *)
Definition Edge_connect (self : Edge) (other : operand) : M operand :=
  match other with
  | OEdge o => mret (OEdge (set_attrs (e_attrs o) self))
  | ONode n =>
      match e_node self with
      | Some m => ONode <$> Node_connect m n self
      | None => mret (OEdge (set_node n self))
      end
  end.

(** [Node.__rshift__(other)] and [Node.__lshift__(other)]. *)
Definition Node_rshift (self : Node) (other : operand) : M operand :=
  match other with
  | ONode n => ONode <$> Node_connect self n (Edge_new (Some self) true false "" "" "" [])
  | OEdge e => mret (OEdge (set_node self (set_forward e)))
  end.

Definition Node_lshift (self : Node) (other : operand) : M operand :=
  match other with
  | ONode n => ONode <$> Node_connect self n (Edge_new (Some self) false true "" "" "" [])
  | OEdge e => Edge_connect (set_reverse e) (ONode self)
  end.

(** [Edge.__rshift__(other)] and [Edge.__lshift__(other)]. *)
Definition Edge_rshift (self : Edge) (other : operand) : M operand :=
  Edge_connect (set_forward self) other.

Definition Edge_lshift (self : Edge) (other : operand) : M operand :=
  Edge_connect (set_reverse self) other.

(** [a >> b] and [a << b]: both operands are evaluated, left first, then the
    method of the left one is called. *)
Definition rshift (x y : M operand) : M operand :=
  a ← x; b ← y;
  match a with
  | ONode n => Node_rshift n b
  | OEdge e => Edge_rshift e b
  end.

Definition lshift (x y : M operand) : M operand :=
  a ← x; b ← y;
  match a with
  | ONode n => Node_lshift n b
  | OEdge e => Edge_lshift e b
  end.

(** *** Names, assignments and expression statements of the script *)

(** [x = e]. *)
Definition assign (x : string) (e : M Node) : M unit :=
  v ← e; modify (with_globals (<[x := v]>)).

(** The expression [x]. *)
Definition name (x : string) : M operand := λ w,
  match globals w !! x with
  | Some n => Ok (ONode n) w
  | None => Raise (NameError x) w
  end.

(** An expression statement: the value is dropped. *)
Definition stmt_expr (e : M operand) : M unit := e ;; mret tt.

(** Keyword arguments of an [Edge(...)] call: [label], [color] and [style]
    are bound to the parameters of those names, the others go to [**attrs]. *)
Definition kwarg (k : string) (kw : attrs) : string := default "" (getitem k kw).

Definition other_kwargs (kw : attrs) : attrs :=
  filter (λ p, ¬ (p.1 = "label" ∨ p.1 = "color" ∨ p.1 = "style")) kw.

Definition Edge_call (kw : attrs) : M operand :=
  mret (OEdge (Edge_new None false false (kwarg "label" kw) (kwarg "color" kw)
                        (kwarg "style" kw) (other_kwargs kw))).

(** The attributes graphviz is given for an edge made by [Edge(...)] with
    the keyword arguments [kw] and the two direction flags, and for the edge
    [a >> b] makes by itself. *)
Definition styled_attrs (kw : attrs) (forward reverse : bool) : attrs :=
  Edge_attrs (Edge_new None forward reverse (kwarg "label" kw) (kwarg "color" kw)
                       (kwarg "style" kw) (other_kwargs kw)).

Definition plain_attrs : attrs := Edge_attrs (Edge_new None true false "" "" "" []).

(** A call [C(label)] of a node class [C], with no [nodeid] and no extra
    attributes. *)
Definition Node_call (provider type name : string) (label : string) : M Node :=
  Node_new (mkNodeClass provider type name) label None [].

End Operations.

(** *** Reading a world back *)

(** The body of the root graph of a diagram, and what it holds: its edge
    statements, the names of its node statements and its containment pairs. *)
Definition body_of (w : world) (d : DiagramRef) : list stmt :=
  default [] ((λ x, dg_body (d_dot x)) <$> diagrams w !! dref d).

Definition edges_of (w : world) (d : DiagramRef) : list (string * string * attrs) :=
  flat_map edge_stmts (body_of w d).

Definition declared_in (w : world) (d : DiagramRef) : list string :=
  flat_map node_names (body_of w d).

Definition nesting_of (w : world) (d : DiagramRef) : list (option string * (string + string)) :=
  flat_map (contains_under None) (body_of w d).

(** The cluster containment a world holds, on the heap and in the graphs:
    the [_parent] of every cluster, the [_cluster] of every node, what every
    cluster has collected in its own graph so far, and the containment pairs
    of every diagram. *)
Definition containment (w : world)
  : list (option ClusterRef) * list (string * option ClusterRef)
    * list (list (option string * (string + string)))
    * list (list (option string * (string + string))) :=
  (c_parent <$> clusters w,
   (λ n, (n_id n, n_cluster n)) <$> nodes w,
   (λ c, flat_map (contains_under (Some (c_name c))) (dg_body (c_dot c))) <$> clusters w,
   (λ d, flat_map (contains_under None) (dg_body (d_dot d))) <$> diagrams w).

(** How graphviz draws an edge statement [tail -> head]: the arrowhead is at
    [head] when [dir] is [forward] (the default of a directed graph), at
    [tail] when it is [back], at both ends when it is [both] and at neither
    when it is [none].  Each pair is (where the arrow starts, where it
    points). *)
Definition arrows (r : string * string * attrs) : list (string * string) :=
  let '(t, h, a) := r in
  match getitem "dir" a with
  | None => [(t, h)]
  | Some d =>
      if String.eqb d "forward" then [(t, h)]
      else if String.eqb d "back" then [(h, t)]
      else if String.eqb d "both" then [(t, h); (h, t)]
      else []
  end.

(** A statement [m] leaves the containment alone. *)
Definition keeps_containment {A : Type} (m : M A) : Prop :=
  ∀ w, containment (final (m w)) = containment w.

(** Everything of a world but its diagram objects. *)
Definition rest_of (w : world) :=
  (clusters w, nodes w, ctx_diagram w, ctx_cluster w, globals w, entropy w, drawn w,
   engine_installed w, files w).

(** A diagram object that differs from another by edge statements added at
    the end of its graph; two worlds that differ by such additions only. *)
Definition grown_by_edges (d d' : Diagram) : Prop :=
  ∃ es, Forall is_edge es ∧ d' = on_d_dot (extend es) d.

Definition edges_only (w w' : world) : Prop :=
  rest_of w' = rest_of w ∧ Forall2 grown_by_edges (diagrams w) (diagrams w').

(** A statement [m] does nothing but add edges to diagrams. *)
Definition only_adds_edges {A : Type} (m : M A) : Prop :=
  ∀ w, edges_only w (final (m w)).

End Diagrams.

(** ** The script [diagrams/openclaw_diagram.py] *)
Module OpenClaw.
Import Graphviz Diagrams.

Notation "x ::= e" := (assign x e) (at level 90, no associativity).
Notation "x >> y" := (rshift x y) (at level 50, left associativity).
Notation "x << y" := (lshift x y) (at level 50, left associativity).

Section Script.
Context `{Package}.

(** Lines 1-9, the imports: each node class with the provider and resource
    type of the module it comes from. *)
Definition Cluster (label : string) : M ClusterRef := Cluster_new label "LR" [].
Definition Edge (kw : attrs) : M operand := Edge_call kw.
Definition EC2 := Node_call "aws" "compute" "EC2".
Definition Lambda := Node_call "aws" "compute" "Lambda".
Definition CloudFront := Node_call "aws" "network" "CloudFront".
Definition VPC := Node_call "aws" "network" "VPC".
Definition Route53 := Node_call "aws" "network" "Route53".
Definition WAF := Node_call "aws" "security" "WAF".
Definition SecretsManager := Node_call "aws" "security" "SecretsManager".
Definition IAMRole := Node_call "aws" "security" "IAMRole".
Definition Inspector := Node_call "aws" "security" "Inspector".
Definition Detective := Node_call "aws" "security" "Detective".
Definition SystemsManager := Node_call "aws" "management" "SystemsManager".
Definition Cloudwatch := Node_call "aws" "management" "Cloudwatch".
Definition Eventbridge := Node_call "aws" "integration" "Eventbridge".
Definition User := Node_call "onprem" "client" "User".
Definition Docker := Node_call "onprem" "container" "Docker".
Definition Python := Node_call "programming" "language" "Python".

(** Lines 14-18. *)
Definition graph_attr : attrs :=
  [("fontsize", "16"); ("bgcolor", "white"); ("splines", "ortho")].

(** Line 20: [Diagram("OpenClaw Security Architecture", show=False,
    direction="TB", graph_attr=graph_attr)]; the other parameters keep their
    defaults. *)
Definition Diagram : M DiagramRef :=
  Diagram_new "OpenClaw Security Architecture" "" "TB" "ortho" "png"
              false false false graph_attr [] [].

(** The names the script assigns, as expressions. *)
Definition user := name "user".
Definition waf := name "waf".
Definition cloudfront := name "cloudfront".
Definition dns_fw := name "dns_fw".
Definition ec2 := name "ec2".
Definition docker := name "docker".
Definition iam := name "iam".
Definition secrets := name "secrets".
Definition inspector := name "inspector".
Definition detective := name "detective".
Definition cloudwatch := name "cloudwatch".
Definition ssm := name "ssm".
Definition eventbridge := name "eventbridge".
Definition janitor_lambda := name "janitor_lambda".
Definition external := name "external".

(** Lines 22-58: the nodes and the clusters around them. *)
Definition declarations : M unit :=
  "user" ::= User "User" ;;
  With (Cluster "AWS Cloud") (
    With (Cluster "Ingress Layer") (
      "waf" ::= WAF ("WAF" +:+ nl +:+ "Rate Limit + Rules") ;;
      "cloudfront" ::= CloudFront ("CloudFront" +:+ nl +:+ "HTTPS Only")
    ) ;;
    With (Cluster "VPC") (
      "dns_fw" ::= Route53 ("DNS Firewall" +:+ nl +:+ "Allowlist Only") ;;
      With (Cluster "Private Subnet") (
        "ec2" ::= EC2 ("EC2" +:+ nl +:+ "OpenClaw Gateway") ;;
        "docker" ::= Docker ("Docker" +:+ nl +:+ "Agent Sandboxes") ;;
        "iam" ::= IAMRole ("IAM Role" +:+ nl +:+ "Least Privilege") ;;
        "secrets" ::= SecretsManager ("Secrets Mgr" +:+ nl +:+ "API Keys")
      )
    ) ;;
    With (Cluster "Security Monitoring") (
      "inspector" ::= Inspector ("Inspector" +:+ nl +:+ "Vuln Scanning") ;;
      "detective" ::= Detective ("GuardDuty" +:+ nl +:+ "Threat Detection") ;;
      "cloudwatch" ::= Cloudwatch ("CloudWatch" +:+ nl +:+ "Alarms + Logs")
    ) ;;
    With (Cluster "Cloud Janitor") (
      "ssm" ::= SystemsManager ("SSM" +:+ nl +:+ "Patch Manager") ;;
      "eventbridge" ::= Eventbridge ("EventBridge" +:+ nl +:+ "Scheduler") ;;
      "janitor_lambda" ::= Lambda ("Lambda" +:+ nl +:+ "Cleanup Tasks")
    ) ;;
    "external" ::= Python ("External APIs" +:+ nl +:+ "OpenAI / Anthropic")
  ).

(** Lines 60-80: the data flows, one expression statement per line. *)
Definition data_flows : list (M operand) :=
  [ user >> Edge [("label", "HTTPS")] >> waf >> cloudfront >> ec2;
    ec2 >> Edge [("label", "spawn")] >> docker;
    ec2 >> Edge [("style", "dotted")] >> iam;
    ec2 << Edge [("color", "darkgreen")] << secrets;
    docker >> dns_fw >> external;
    ec2 >> Edge [("style", "dashed"); ("color", "gray")] >> inspector;
    ec2 >> Edge [("style", "dashed"); ("color", "gray")] >> detective;
    ec2 >> Edge [("style", "dashed"); ("color", "gray")] >> cloudwatch;
    eventbridge >> janitor_lambda;
    ssm >> ec2 ].

(** A block of expression statements. *)
Fixpoint block (l : list (M operand)) : M unit :=
  match l with
  | [] => mret tt
  | e :: l' => stmt_expr e ;; block l'
  end.

(** The body of the [with Diagram(...)] statement, and the whole script. *)
Definition diagram_body : M unit := declarations ;; block data_flows.

Definition script : M unit := With Diagram diagram_body.

(** A run of the script from a fresh interpreter: the values [uuid4] will
    return, whether the layout engine is installed, and the working
    directory. *)
Definition run (entropy : nat → string) (engine : bool) (fs : string → option file)
  : result unit :=
  script (boot entropy engine fs).

End Script.

(** The script builds one diagram, the first object of its kind. *)
Definition the_diagram : DiagramRef := DRef 0.

Definition edge_list (w : world) : list (string * string * attrs) := edges_of w the_diagram.
Definition nesting (w : world) : list (option string * (string + string)) :=
  nesting_of w the_diagram.
Definition declared (w : world) : list string := declared_in w the_diagram.

(** The graph of the diagram, and the path of the image the script leaves. *)
Definition graph_of (w : world) : option Digraph := d_dot <$> diagrams w !! dref the_diagram.

Definition source_path : string := "openclaw_security_architecture".
Definition image_path : string := "openclaw_security_architecture.png".

(** The renaming between two runs: the [k]-th id drawn in the first goes to
    the [k]-th id drawn in the second, for the first [n] draws; any other
    name stays. *)
Definition transport (e1 e2 : nat → string) (n : nat) (x : string) : string :=
  match list_find (λ k, e1 k = x) (seq 0 n) with
  | Some (_, k) => e2 k
  | None => x
  end.

(** The names the script assigns, in the order of their assignments. *)
Definition script_names : list string :=
  [ "user"; "waf"; "cloudfront"; "dns_fw"; "ec2"; "docker"; "iam"; "secrets";
    "inspector"; "detective"; "cloudwatch"; "ssm"; "eventbridge"; "janitor_lambda";
    "external" ].

(** The node a global name holds, by its id; the arrow between two names. *)
Definition handle (w : world) (x : string) : option string := n_id <$> globals w !! x.

Definition flow (w : world) (x y : string) : option (string * string) :=
  s ← handle w x; d ← handle w y; Some (s, d).

(** The label of the cluster a name's node was constructed in. *)
Definition cluster_of (w : world) (x : string) : option (option string) :=
  n ← globals w !! x;
  match n_cluster n with
  | None => Some None
  | Some c => Some <$> (c_label <$> clusters w !! cref c)
  end.

(** An edge record joins two given nodes, in either order. *)
Definition joins (a b : string) (r : string * string * attrs) : Prop :=
  (r.1.1 = a ∧ r.1.2 = b) ∨ (r.1.1 = b ∧ r.1.2 = a).

#[export] Instance joins_dec (a b : string) (r : string * string * attrs) :
  Decision (joins a b r).
Proof. unfold joins. apply _. Defined.

(** The [cluster_] names directly under a subgraph name, and the parent
    relation between subgraph names, read off the containment pairs. *)
Definition parent_in (w : world) (p c : string) : Prop := (Some p, inl c) ∈ nesting w.

(** What the graph puts directly under a subgraph name ([None]: under the
    root), in order. *)
Definition children_of (w : world) (p : option string) : list (string + string) :=
  snd <$> filter (λ pc, pc.1 = p) (nesting w).

(** The cluster names, ranked by the depth at which the script opens them. *)
Definition cluster_rank (s : string) : nat :=
  if String.eqb s "cluster_AWS Cloud" then 0
  else if String.eqb s "cluster_VPC" then 1
  else 2.

(** The label of every cluster of the heap with the label of its [_parent]. *)
Definition parent_labels (w : world) : list (string * option string) :=
  (λ c, (c_label c, c_parent c ≫= λ p, c_label <$> clusters w !! cref p)) <$> clusters w.

(** A label has more than one line. *)
Definition multi_line (s : string) : Prop := 0 < count_nl s.

(** Sample tables and sample [uuid4] values, to run the model on closed
    inputs. *)
Definition sample : Package := {|
  Diagram_default_graph_attrs :=
    [("pad", "2.0"); ("splines", "ortho"); ("nodesep", "0.60"); ("ranksep", "0.75");
     ("fontname", "Sans-Serif"); ("fontsize", "15"); ("fontcolor", "#2D3436")];
  Diagram_default_node_attrs :=
    [("shape", "box"); ("style", "rounded"); ("fixedsize", "true"); ("width", "1.4");
     ("height", "1.4"); ("labelloc", "b"); ("imagescale", "true");
     ("fontname", "Sans-Serif"); ("fontsize", "13"); ("fontcolor", "#2D3436")];
  Diagram_default_edge_attrs := [("color", "#7B8894")];
  Cluster_default_graph_attrs :=
    [("shape", "box"); ("style", "rounded"); ("labeljust", "l"); ("pencolor", "#AEB6BE");
     ("fontname", "Sans-Serif"); ("fontsize", "12")];
  Cluster_bgcolor := λ depth,
    default "" (["#E5F5FD"; "#EBF3E7"; "#ECE8F6"; "#FDF7E3"] !! (depth `mod` 4));
  Edge_default_attrs :=
    [("fontcolor", "#2D3436"); ("fontname", "Sans-Serif"); ("fontsize", "13")];
  load_icon := λ c,
    Some ("resources/" +:+ cls_provider c +:+ "/" +:+ cls_type c +:+ "/" +:+ lower (cls_name c)
          +:+ ".png");
  height_str := λ n, default "" (["1.9"; "2.3"; "2.7"] !! n)
|}.

Fixpoint repeated (c : Ascii.ascii) (k : nat) : string :=
  match k with
  | 0 => String c EmptyString
  | S k' => String c (repeated c k')
  end.

Definition hex_a : nat → string := repeated (Ascii.ascii_of_nat 97).
Definition hex_b : nat → string := repeated (Ascii.ascii_of_nat 98).
Definition no_files : string → option file := λ _, None.
(** The world in which the [with] statement of line 20 starts its body:
    the diagram has been made and is the current one. *)
Definition entered `{Package} (w : world) : world :=
  final ((Diagram ≫= Diagram_enter) w).

(** A small world to try the operators in: one diagram with an empty graph
    and three nodes that belong to it. *)
Definition demo_diagram : Diagrams.Diagram :=
  mkDiagram "demo" "demo" (Digraph_new "demo" "demo" false) "png" false false.

Definition demo_world : world :=
  mkWorld [demo_diagram] [] [] (Some (DRef 0)) None ∅ hex_a 0 true no_files.

Definition demo_node (id : string) : Node :=
  mkNode (mkNodeClass "aws" "compute" "EC2") id id [] (DRef 0) None.

(** A fresh interpreter just inside the [with] statement, with the sample
    tables, and the diagram it holds. *)
Definition inside_world : world := entered (H := sample) (boot hex_a true no_files).

Definition inside_diagram : Diagrams.Diagram :=
  default demo_diagram (diagrams inside_world !! 0).

(** The script run a second time in the interpreter the first run leaves. *)
Definition twice `{Package} : M unit := script ;; script.

Definition second_diagram : DiagramRef := DRef 1.

End OpenClaw.

(** * Properties of the package and of the script *)

Import Graphviz Diagrams OpenClaw.

(** ** Dictionaries *)

Lemma getitem_setitem_eq (k v : string) (d : attrs) : getitem k (setitem k v d) = Some v.
Proof. unfold setitem. simpl. by rewrite String.eqb_refl. Qed.

Lemma getitem_setitem_ne (k k' v : string) (d : attrs) :
  k ≠ k' → getitem k (setitem k' v d) = getitem k d.
Proof.
  intros Hne. unfold setitem. simpl.
  destruct (String.eqb_spec k k') as [->|_]; [done | reflexivity].
Qed.

Lemma getitem_update (k : string) (new self : attrs) :
  getitem k (update new self) = from_option Some (getitem k self) (getitem k new).
Proof.
  unfold update. induction new as [|[k' v] new IH]; simpl; [reflexivity|].
  destruct (String.eqb k k'); [reflexivity | exact IH].
Qed.

(** ** The monad *)

Lemma M_left_id {A B : Type} (a : A) (f : A → M B) (w : world) : (mret a ≫= f) w = f a w.
Proof. reflexivity. Qed.

Lemma M_right_id {A : Type} (m : M A) (w : world) : (m ≫= mret) w = m w.
Proof. unfold mbind, M_bind. by destruct (m w). Qed.

Lemma M_assoc {A B C : Type} (m : M A) (f : A → M B) (g : B → M C) (w : world) :
  ((m ≫= f) ≫= g) w = (m ≫= λ a, f a ≫= g) w.
Proof. unfold mbind, M_bind. by destruct (m w). Qed.

(** ** Statements that leave the containment alone *)

Section Frame.
Context `{Package}.

Lemma kc_ret {A : Type} (a : A) : keeps_containment (mret a).
Proof. intros w. reflexivity. Qed.

Lemma kc_raise {A : Type} (e : exn) : keeps_containment (raise (A := A) e).
Proof. intros w. reflexivity. Qed.

Lemma kc_bind {A B : Type} (m : M A) (f : A → M B) :
  keeps_containment m → (∀ a, keeps_containment (f a)) → keeps_containment (m ≫= f).
Proof.
  intros Hm Hf w. specialize (Hm w). unfold mbind, M_bind.
  destruct (m w) as [a w'|e w']; simpl in *.
  - by rewrite Hf.
  - exact Hm.
Qed.

Lemma kc_fmap {A B : Type} (g : A → B) (m : M A) :
  keeps_containment m → keeps_containment (g <$> m).
Proof.
  intros Hm w. specialize (Hm w). unfold fmap, M_fmap.
  by destruct (m w).
Qed.

(** An edge statement adds no containment pair to a body. *)
Lemma contains_under_edge (p : option string) (b : list stmt) (t h : string) (a : attrs) :
  flat_map (contains_under p) (b ++ [SEdge t h a]) = flat_map (contains_under p) b.
Proof. rewrite flat_map_app. simpl. by rewrite app_nil_r. Qed.

Lemma kc_Diagram_connect (self : DiagramRef) (node node2 : Node) (edge : Diagrams.Edge) :
  keeps_containment (Diagram_connect self node node2 edge).
Proof.
  intros w. unfold Diagram_connect, write_diagram, read_diagram, mbind, M_bind.
  destruct (diagrams w !! dref self) as [d|] eqn:Hd; [|reflexivity].
  unfold containment. simpl. f_equal.
  rewrite list_fmap_insert. simpl. rewrite contains_under_edge.
  apply list_insert_id. by rewrite list_lookup_fmap, Hd.
Qed.

Lemma kc_Node_connect (self node : Node) (edge : Diagrams.Edge) :
  keeps_containment (Node_connect self node edge).
Proof.
  unfold Node_connect. apply kc_bind; [apply kc_Diagram_connect | intros; apply kc_ret].
Qed.

Lemma kc_Edge_connect (self : Diagrams.Edge) (other : operand) :
  keeps_containment (Edge_connect self other).
Proof.
  destruct other as [n|o]; simpl; [|apply kc_ret].
  destruct (e_node self); [apply kc_fmap, kc_Node_connect | apply kc_ret].
Qed.

Lemma kc_Node_rshift (self : Node) (other : operand) :
  keeps_containment (Node_rshift self other).
Proof. destruct other; simpl; [apply kc_fmap, kc_Node_connect | apply kc_ret]. Qed.

Lemma kc_Node_lshift (self : Node) (other : operand) :
  keeps_containment (Node_lshift self other).
Proof.
  destruct other; unfold Node_lshift; [apply kc_fmap, kc_Node_connect | apply kc_Edge_connect].
Qed.

Lemma kc_rshift (x y : M operand) :
  keeps_containment x → keeps_containment y → keeps_containment (rshift x y).
Proof.
  intros Hx Hy. unfold rshift. apply kc_bind; [done|]. intros a.
  apply kc_bind; [done|]. intros b.
  destruct a; [apply kc_Node_rshift | apply kc_Edge_connect].
Qed.

Lemma kc_lshift (x y : M operand) :
  keeps_containment x → keeps_containment y → keeps_containment (lshift x y).
Proof.
  intros Hx Hy. unfold lshift. apply kc_bind; [done|]. intros a.
  apply kc_bind; [done|]. intros b.
  destruct a; [apply kc_Node_lshift | apply kc_Edge_connect].
Qed.

Lemma kc_name (x : string) : keeps_containment (name x).
Proof. intros w. unfold name. by destruct (globals w !! x). Qed.

Lemma kc_Edge (kw : attrs) : keeps_containment (Edge kw).
Proof. apply kc_ret. Qed.

Lemma kc_stmt_expr (e : M operand) : keeps_containment e → keeps_containment (stmt_expr e).
Proof. intros He. unfold stmt_expr. apply kc_bind; [done | intros; apply kc_ret]. Qed.

Lemma kc_block (l : list (M operand)) :
  Forall (λ e, keeps_containment (stmt_expr e)) l → keeps_containment (block l).
Proof.
  induction 1 as [|e l He _ IH]; simpl; [apply kc_ret|].
  apply kc_bind; [done | intros; exact IH].
Qed.

End Frame.

(** Containment of an expression statement, by the shape of the expression. *)
Ltac frame :=
  repeat match goal with
         | |- keeps_containment (stmt_expr _) => apply kc_stmt_expr
         | |- keeps_containment (rshift _ _) => apply kc_rshift
         | |- keeps_containment (lshift _ _) => apply kc_lshift
         | |- keeps_containment (name _) => apply kc_name
         | |- keeps_containment (Edge _) => apply kc_Edge
         end.

(** ** What a run of the script builds

    The script has no input and no branch on a value it computes, so a run
    is settled by evaluation; the facts below read the world it ends in.
    The ids are the values [e 0 .. e 14] of [uuid4], in construction order. *)

Section Run.
Context `{Package} (e : nat → string) (eng : bool) (fs : string → option file).

Lemma run_returns : returned (run e true fs) = Some tt.
Proof. vm_compute. reflexivity. Qed.

Lemma run_without_engine : ∃ w, run e false fs = Raise ExecutableNotFound w.
Proof. eexists. vm_compute. reflexivity. Qed.

Lemma run_nodes :
  (λ n, (n_id n, n_cluster n)) <$> nodes (final (run e eng fs)) =
  [ (e 0, None);
    (e 1, Some (CRef 1)); (e 2, Some (CRef 1));
    (e 3, Some (CRef 2));
    (e 4, Some (CRef 3)); (e 5, Some (CRef 3)); (e 6, Some (CRef 3)); (e 7, Some (CRef 3));
    (e 8, Some (CRef 4)); (e 9, Some (CRef 4)); (e 10, Some (CRef 4));
    (e 11, Some (CRef 5)); (e 12, Some (CRef 5)); (e 13, Some (CRef 5));
    (e 14, Some (CRef 0)) ].
Proof. destruct eng; vm_compute; reflexivity. Qed.

Lemma run_node_ids : n_id <$> nodes (final (run e eng fs)) = e <$> seq 0 15.
Proof. destruct eng; vm_compute; reflexivity. Qed.

Lemma run_declared : declared (final (run e eng fs)) = e <$> seq 0 15.
Proof. destruct eng; vm_compute; reflexivity. Qed.

Lemma run_clusters :
  (λ c, (c_label c, c_name c, c_parent c, c_depth c)) <$> clusters (final (run e eng fs)) =
  [ ("AWS Cloud", "cluster_AWS Cloud", None, 0);
    ("Ingress Layer", "cluster_Ingress Layer", Some (CRef 0), 1);
    ("VPC", "cluster_VPC", Some (CRef 0), 1);
    ("Private Subnet", "cluster_Private Subnet", Some (CRef 2), 2);
    ("Security Monitoring", "cluster_Security Monitoring", Some (CRef 0), 1);
    ("Cloud Janitor", "cluster_Cloud Janitor", Some (CRef 0), 1) ].
Proof. destruct eng; vm_compute; reflexivity. Qed.

Lemma run_handles : handle (final (run e eng fs)) <$> script_names = Some ∘ e <$> seq 0 15.
Proof. destruct eng; vm_compute; reflexivity. Qed.

(** Every drawn id is the id of the node one of the names holds. *)
Lemma run_handle_of_draw (k : nat) :
  k < 15 → ∃ x, x ∈ script_names ∧ handle (final (run e eng fs)) x = Some (e k).
Proof.
  intros Hk.
  assert (Hat : (handle (final (run e eng fs)) <$> script_names) !! k = Some (Some (e k))).
  { rewrite run_handles, list_lookup_fmap, lookup_seq_lt by done. reflexivity. }
  rewrite list_lookup_fmap in Hat.
  destruct (script_names !! k) as [x|] eqn:Hx; [|discriminate Hat].
  exists x. split; [by eapply list_elem_of_lookup_2|].
  cbn [fmap option_fmap option_map] in Hat. congruence.
Qed.

Lemma run_edge_ends :
  (λ r, (r.1.1, r.1.2, getitem "dir" r.2)) <$> edge_list (final (run e eng fs)) =
  [ (e 0, e 1, Some "forward"); (e 1, e 2, Some "forward"); (e 2, e 4, Some "forward");
    (e 4, e 5, Some "forward"); (e 4, e 6, Some "forward"); (e 4, e 7, Some "back");
    (e 5, e 3, Some "forward"); (e 3, e 14, Some "forward");
    (e 4, e 8, Some "forward"); (e 4, e 9, Some "forward"); (e 4, e 10, Some "forward");
    (e 12, e 13, Some "forward"); (e 11, e 4, Some "forward") ].
Proof. destruct eng; vm_compute; reflexivity. Qed.

Lemma run_nesting :
  nesting (final (run e eng fs)) =
  [ (None, inr (e 0));
    (None, inl "cluster_AWS Cloud");
    (Some "cluster_AWS Cloud", inl "cluster_Ingress Layer");
    (Some "cluster_Ingress Layer", inr (e 1));
    (Some "cluster_Ingress Layer", inr (e 2));
    (Some "cluster_AWS Cloud", inl "cluster_VPC");
    (Some "cluster_VPC", inr (e 3));
    (Some "cluster_VPC", inl "cluster_Private Subnet");
    (Some "cluster_Private Subnet", inr (e 4));
    (Some "cluster_Private Subnet", inr (e 5));
    (Some "cluster_Private Subnet", inr (e 6));
    (Some "cluster_Private Subnet", inr (e 7));
    (Some "cluster_AWS Cloud", inl "cluster_Security Monitoring");
    (Some "cluster_Security Monitoring", inr (e 8));
    (Some "cluster_Security Monitoring", inr (e 9));
    (Some "cluster_Security Monitoring", inr (e 10));
    (Some "cluster_AWS Cloud", inl "cluster_Cloud Janitor");
    (Some "cluster_Cloud Janitor", inr (e 11));
    (Some "cluster_Cloud Janitor", inr (e 12));
    (Some "cluster_Cloud Janitor", inr (e 13));
    (Some "cluster_AWS Cloud", inr (e 14)) ].
Proof. destruct eng; vm_compute; reflexivity. Qed.

(** A drawn id is one of the first [n] values of the entropy. *)
Lemma drawn_elem_of (k n : nat) : k < n → e k ∈ e <$> seq 0 n.
Proof. intros Hk. apply list_elem_of_fmap_2, elem_of_seq. lia. Qed.

End Run.

(** ** The claims *)

(** C1.  Every edge of the final edge list references two nodes that were
    constructed in the same diagram: the thirteen edge records of the run
    each have a tail and a head that is the id of a [Node] object on the
    heap, that is, of a node one of the node constructions of the script
    returned; it is the node one of the names the script assigns holds, and
    the root graph declares it in a node statement. *)
Theorem edges_reference_constructed_nodes `{Package}
    (e : nat → string) (eng : bool) (fs : string → option file) :
  let w := final (run e eng fs) in
  length (edge_list w) = 13 ∧
  Forall (λ r, (∃ n, n ∈ nodes w ∧ n_id n = r.1.1) ∧ (∃ n, n ∈ nodes w ∧ n_id n = r.1.2)
               ∧ (∃ x, x ∈ script_names ∧ handle w x = Some r.1.1)
               ∧ (∃ x, x ∈ script_names ∧ handle w x = Some r.1.2)
               ∧ r.1.1 ∈ declared w ∧ r.1.2 ∈ declared w)
         (edge_list w).
Proof.
  intros w.
  pose proof (run_edge_ends e eng fs) as Hends. fold w in Hends.
  split.
  { rewrite <- (length_fmap (λ r, (r.1.1, r.1.2, getitem "dir" r.2))), Hends. reflexivity. }
  assert (Hheap : ∀ x, x ∈ e <$> seq 0 15 → ∃ n, n ∈ nodes w ∧ n_id n = x).
  { intros x Hx. rewrite <- (run_node_ids e eng fs) in Hx. fold w in Hx.
    apply list_elem_of_fmap in Hx as (n & -> & Hn). eauto. }
  assert (Hname : ∀ x, x ∈ e <$> seq 0 15 → ∃ y, y ∈ script_names ∧ handle w y = Some x).
  { intros x Hx. apply list_elem_of_fmap in Hx as (k & -> & Hk).
    apply elem_of_seq in Hk. apply run_handle_of_draw. lia. }
  assert (Hall : Forall (λ p : string * string * option string,
                           p.1.1 ∈ e <$> seq 0 15 ∧ p.1.2 ∈ e <$> seq 0 15)
                        ((λ r, (r.1.1, r.1.2, getitem "dir" r.2)) <$> edge_list w)).
  { rewrite Hends. repeat constructor; simpl; apply drawn_elem_of; lia. }
  rewrite Forall_fmap in Hall.
  pose proof (run_declared e eng fs) as Hd. fold w in Hd.
  clearbody w.
  eapply Forall_impl; [exact Hall|].
  intros r [Ht Hh]. simpl in Ht, Hh. rewrite Hd. auto 10.
Qed.

(** C7.  Constructing an edge never changes the cluster containment tree.
    [Diagram.connect] leaves the containment of any world alone; so does
    every one of the ten data-flow statements of the script, run in any
    world, and so does their block: the [_parent] of every cluster, the
    [_cluster] of every node and the containment pairs of every graph are
    the same before and after.  The edges of the script do cross cluster
    boundaries: [user] is under no cluster and [waf] under Ingress Layer,
    [docker] under Private Subnet and [dns_fw] under VPC, [external] under
    AWS Cloud. *)
Theorem edges_keep_the_containment_tree `{Package} :
  (∀ (self : DiagramRef) (node node2 : Node) (edge : Diagrams.Edge),
     keeps_containment (Diagram_connect self node node2 edge))
  ∧ Forall (λ s, keeps_containment (stmt_expr s)) data_flows
  ∧ keeps_containment (block data_flows)
  ∧ (∀ (e : nat → string) (eng : bool) (fs : string → option file),
       let w := final (run e eng fs) in
       cluster_of w "user" = Some None
       ∧ cluster_of w "waf" = Some (Some "Ingress Layer")
       ∧ cluster_of w "docker" = Some (Some "Private Subnet")
       ∧ cluster_of w "dns_fw" = Some (Some "VPC")
       ∧ cluster_of w "external" = Some (Some "AWS Cloud")).
Proof.
  assert (Hflows : Forall (λ s, keeps_containment (stmt_expr s)) data_flows).
  { unfold data_flows, user, waf, cloudfront, ec2, docker, iam, secrets, dns_fw, external,
      inspector, detective, cloudwatch, eventbridge, janitor_lambda, ssm.
    repeat (apply Forall_cons; split; [solve [frame]|]). constructor. }
  split; [exact kc_Diagram_connect|].
  split; [exact Hflows|].
  split; [apply kc_block, Hflows|].
  intros e eng fs w. subst w. destruct eng; vm_compute; auto.
Qed.

(** [Diagram.connect] on a diagram of the heap returns and appends exactly
    one record to its edge list, whatever the list already holds. *)
Lemma connect_appends `{Package} (w : world) (self : DiagramRef) (d : Diagrams.Diagram)
    (node node2 : Node) (edge : Diagrams.Edge) :
  diagrams w !! dref self = Some d →
  returned (Diagram_connect self node node2 edge w) = Some tt
  ∧ edges_of (final (Diagram_connect self node node2 edge w)) self =
    edges_of w self ++ [(n_id node, n_id node2, Edge_attrs edge)].
Proof.
  intros Hd. unfold Diagram_connect, write_diagram, read_diagram, mbind, M_bind.
  rewrite Hd. simpl. split; [reflexivity|].
  unfold edges_of, body_of. simpl.
  rewrite list_lookup_insert_eq by (eapply lookup_lt_Some; exact Hd).
  rewrite Hd. simpl. by rewrite flat_map_app.
Qed.

(** On a dangling reference it raises and the edge list stays as it is. *)
Lemma connect_dangling `{Package} (w : world) (self : DiagramRef)
    (node node2 : Node) (edge : Diagrams.Edge) :
  diagrams w !! dref self = None →
  final (Diagram_connect self node node2 edge w) = w.
Proof.
  intros Hd. unfold Diagram_connect, write_diagram, read_diagram, mbind, M_bind.
  by rewrite Hd.
Qed.

(** C3.  Each edge construction appends one edge record to the edge list of
    the diagram, with no uniqueness check: [Diagram.connect] extends the
    list by exactly the record it is given, whatever the list holds (on a
    reference to no diagram, which Python cannot form, nothing is added).
    After the build the list holds exactly thirteen records; read as arrows
    they are, in source order, user to waf, waf to cloudfront, cloudfront to
    ec2, ec2 to docker, ec2 to iam, secrets to ec2, docker to dns_fw, dns_fw
    to external, ec2 to inspector, ec2 to detective, ec2 to cloudwatch,
    eventbridge to janitor_lambda, ssm to ec2.  The records as stored are
    given too: the sixth is kept as [ec2 -> secrets] with [dir=back], which
    graphviz draws as an arrow from secrets to ec2. *)
Theorem thirteen_edges_in_source_order `{Package} :
  (∀ (w : world) (self : DiagramRef) (node node2 : Node) (edge : Diagrams.Edge),
     edges_of (final (Diagram_connect self node node2 edge w)) self =
     edges_of w self ++
       match diagrams w !! dref self with
       | Some _ => [(n_id node, n_id node2, Edge_attrs edge)]
       | None => []
       end)
  ∧ (∀ (e : nat → string) (eng : bool) (fs : string → option file),
       let w := final (run e eng fs) in
       length (edge_list w) = 13
       ∧ Some <$> flat_map arrows (edge_list w) =
         [ flow w "user" "waf"; flow w "waf" "cloudfront"; flow w "cloudfront" "ec2";
           flow w "ec2" "docker"; flow w "ec2" "iam"; flow w "secrets" "ec2";
           flow w "docker" "dns_fw"; flow w "dns_fw" "external";
           flow w "ec2" "inspector"; flow w "ec2" "detective"; flow w "ec2" "cloudwatch";
           flow w "eventbridge" "janitor_lambda"; flow w "ssm" "ec2" ]
       ∧ (λ r, (Some (r.1.1, r.1.2), getitem "dir" r.2)) <$> edge_list w =
         [ (flow w "user" "waf", Some "forward"); (flow w "waf" "cloudfront", Some "forward");
           (flow w "cloudfront" "ec2", Some "forward"); (flow w "ec2" "docker", Some "forward");
           (flow w "ec2" "iam", Some "forward"); (flow w "ec2" "secrets", Some "back");
           (flow w "docker" "dns_fw", Some "forward"); (flow w "dns_fw" "external", Some "forward");
           (flow w "ec2" "inspector", Some "forward"); (flow w "ec2" "detective", Some "forward");
           (flow w "ec2" "cloudwatch", Some "forward");
           (flow w "eventbridge" "janitor_lambda", Some "forward");
           (flow w "ssm" "ec2", Some "forward") ]).
Proof.
  split.
  - intros w self node node2 edge.
    destruct (diagrams w !! dref self) as [d|] eqn:Hd.
    + by apply (connect_appends w self d).
    + rewrite connect_dangling by done. by rewrite app_nil_r.
  - intros e eng fs w. subst w. split; [|split].
    + rewrite <- (length_fmap (λ r, (r.1.1, r.1.2, getitem "dir" r.2))), run_edge_ends.
      reflexivity.
    + destruct eng; vm_compute; reflexivity.
    + destruct eng; vm_compute; reflexivity.
Qed.

(** [Diagram.__init__] with a valid direction, curve style and output format
    allocates a diagram whose graph attributes are the defaults, then the
    title as [label], the direction as [rankdir], the curve style as
    [splines], then the [graph_attr] argument on top. *)
Lemma Diagram_new_graph_attr `{Package} (name filename direction curvestyle outformat : string)
    (autolabel show strict : bool) (ga na ea : attrs) (w : world) :
  member direction directions = true →
  member curvestyle curvestyles = true →
  member outformat outformats = true →
  ∃ d, Diagram_new name filename direction curvestyle outformat autolabel show strict ga na ea w
       = Ok (DRef (length (diagrams w))) (with_diagrams (λ l, l ++ [d]) w)
     ∧ d_name d = name
     ∧ dg_graph_attr (d_dot d) =
       update ga (setitem "splines" curvestyle (setitem "rankdir" direction
                 (setitem "label" name (update Diagram_default_graph_attrs [])))).
Proof.
  intros Hd Hc Ho. unfold Diagram_new. rewrite Hd, Hc, Ho. simpl.
  eexists. split; [reflexivity|]. split; reflexivity.
Qed.

(** C4.  The root [Diagram] carries the global render attributes: the title
    "OpenClaw Security Architecture" (its name and the [label] of its
    graph), the top-to-bottom direction ([rankdir] is TB), font size 16, a
    white background and orthogonal splines.  The run allocates exactly one
    diagram and these are the attributes it ends with. *)
Theorem diagram_global_attributes `{Package}
    (e : nat → string) (eng : bool) (fs : string → option file) :
  let w := final (run e eng fs) in
  (λ d, (d_name d,
         getitem "label" (dg_graph_attr (d_dot d)),
         getitem "rankdir" (dg_graph_attr (d_dot d)),
         getitem "fontsize" (dg_graph_attr (d_dot d)),
         getitem "bgcolor" (dg_graph_attr (d_dot d)),
         getitem "splines" (dg_graph_attr (d_dot d)))) <$> diagrams w =
  [ ("OpenClaw Security Architecture",
     Some "OpenClaw Security Architecture", Some "TB", Some "16", Some "white",
     Some "ortho") ].
Proof.
  intros w. subst w. destruct eng; vm_compute; reflexivity.
Qed.

(** The node constructions of a run, in order: the icon category of each
    (provider, resource type, class) and the label it was given. *)
Lemma run_node_table `{Package} (e : nat → string) (eng : bool) (fs : string → option file) :
  (λ n, (cls_provider (n_class n), cls_type (n_class n), cls_name (n_class n), n_label n))
    <$> nodes (final (run e eng fs)) =
  [ ("onprem", "client", "User", "User");
    ("aws", "security", "WAF", "WAF" +:+ nl +:+ "Rate Limit + Rules");
    ("aws", "network", "CloudFront", "CloudFront" +:+ nl +:+ "HTTPS Only");
    ("aws", "network", "Route53", "DNS Firewall" +:+ nl +:+ "Allowlist Only");
    ("aws", "compute", "EC2", "EC2" +:+ nl +:+ "OpenClaw Gateway");
    ("onprem", "container", "Docker", "Docker" +:+ nl +:+ "Agent Sandboxes");
    ("aws", "security", "IAMRole", "IAM Role" +:+ nl +:+ "Least Privilege");
    ("aws", "security", "SecretsManager", "Secrets Mgr" +:+ nl +:+ "API Keys");
    ("aws", "security", "Inspector", "Inspector" +:+ nl +:+ "Vuln Scanning");
    ("aws", "security", "Detective", "GuardDuty" +:+ nl +:+ "Threat Detection");
    ("aws", "management", "Cloudwatch", "CloudWatch" +:+ nl +:+ "Alarms + Logs");
    ("aws", "management", "SystemsManager", "SSM" +:+ nl +:+ "Patch Manager");
    ("aws", "integration", "Eventbridge", "EventBridge" +:+ nl +:+ "Scheduler");
    ("aws", "compute", "Lambda", "Lambda" +:+ nl +:+ "Cleanup Tasks");
    ("programming", "language", "Python", "External APIs" +:+ nl +:+ "OpenAI / Anthropic") ].
Proof. destruct eng; vm_compute; reflexivity. Qed.

(** C8, as amended.  Every node construction of the script takes a label
    string and an icon category (the provider and resource type its class is
    imported from), and every label passed is non-empty: the fifteen nodes,
    in construction order, are the ones listed.  Fourteen of the labels have
    more than one line; the label of the User node is the single line
    "User". *)
Theorem node_constructions `{Package}
    (e : nat → string) (eng : bool) (fs : string → option file) :
  let w := final (run e eng fs) in
  length (nodes w) = 15
  ∧ (λ n, (cls_provider (n_class n), cls_type (n_class n), n_label n)) <$> nodes w =
    [ ("onprem", "client", "User");
      ("aws", "security", "WAF" +:+ nl +:+ "Rate Limit + Rules");
      ("aws", "network", "CloudFront" +:+ nl +:+ "HTTPS Only");
      ("aws", "network", "DNS Firewall" +:+ nl +:+ "Allowlist Only");
      ("aws", "compute", "EC2" +:+ nl +:+ "OpenClaw Gateway");
      ("onprem", "container", "Docker" +:+ nl +:+ "Agent Sandboxes");
      ("aws", "security", "IAM Role" +:+ nl +:+ "Least Privilege");
      ("aws", "security", "Secrets Mgr" +:+ nl +:+ "API Keys");
      ("aws", "security", "Inspector" +:+ nl +:+ "Vuln Scanning");
      ("aws", "security", "GuardDuty" +:+ nl +:+ "Threat Detection");
      ("aws", "management", "CloudWatch" +:+ nl +:+ "Alarms + Logs");
      ("aws", "management", "SSM" +:+ nl +:+ "Patch Manager");
      ("aws", "integration", "EventBridge" +:+ nl +:+ "Scheduler");
      ("aws", "compute", "Lambda" +:+ nl +:+ "Cleanup Tasks");
      ("programming", "language", "External APIs" +:+ nl +:+ "OpenAI / Anthropic") ]
  ∧ Forall (λ n, n_label n ≠ "") (nodes w)
  ∧ Forall (λ n, multi_line (n_label n) ↔ n_label n ≠ "User") (nodes w).
Proof.
  intros w. subst w.
  pose proof (run_node_table e eng fs) as Htable.
  set (row := λ n : Node,
         (cls_provider (n_class n), cls_type (n_class n), cls_name (n_class n), n_label n))
    in Htable.
  split; [rewrite <- (length_fmap row), Htable; reflexivity|].
  split.
  { change (λ n : Node, (cls_provider (n_class n), cls_type (n_class n), n_label n))
      with ((λ r : string * string * string * string, (r.1.1.1, r.1.1.2, r.2)) ∘ row).
    rewrite list_fmap_compose, Htable. reflexivity. }
  assert (Hrows : Forall (λ r : string * string * string * string,
                            r.2 ≠ "" ∧ (multi_line r.2 ↔ r.2 ≠ "User"))
                         (row <$> nodes (final (run e eng fs)))).
  { rewrite Htable. unfold multi_line. apply (bool_decide_unpack _). vm_compute. exact I. }
  rewrite Forall_fmap in Hrows.
  clear Htable. split; (eapply Forall_impl; [exact Hrows|]); intros n [Hne Hml].
  - exact Hne.
  - exact Hml.
Qed.

(** The claim C8 as it is stated fails on the first node: not all fifteen
    labels have more than one line, the label "User" has none. *)
Lemma user_label_is_one_line :
  ¬ Forall (λ n, multi_line (n_label n)) (nodes (final (run (H := sample) hex_a true no_files))).
Proof.
  intros Hall. apply Forall_fmap in Hall.
  assert (Hlabels : n_label <$> nodes (final (run (H := sample) hex_a true no_files)) =
                    "User" :: tail (n_label <$> nodes (final (run (H := sample) hex_a true no_files))))
    by (vm_compute; reflexivity).
  rewrite Hlabels in Hall. apply Forall_cons in Hall as [Huser _].
  unfold multi_line in Huser. simpl in Huser. lia.
Qed.

(** C9.  There is a node with no cluster parent: the node the name [user]
    holds is the first node constructed, its [_cluster] is [None] and its
    node statement stands directly in the root graph, so not every node of
    this diagram is owned by a cluster. *)
Theorem user_is_outside_every_cluster `{Package}
    (e : nat → string) (eng : bool) (fs : string → option file) :
  let w := final (run e eng fs) in
  ∃ u : Node,
    globals w !! "user" = Some u
    ∧ nodes w !! 0 = Some u
    ∧ n_label u = "User"
    ∧ n_cluster u = None
    ∧ (None, inr (n_id u)) ∈ nesting w
    ∧ ¬ Forall (λ n, is_Some (n_cluster n)) (nodes w).
Proof.
  intros w.
  assert (Hfirst : ∃ u, globals w !! "user" = Some u ∧ nodes w !! 0 = Some u
                        ∧ n_label u = "User" ∧ n_cluster u = None ∧ n_id u = e 0).
  { subst w. destruct eng; eexists; vm_compute; repeat split; reflexivity. }
  assert (Hroot : (None, inr (e 0)) ∈ nesting w).
  { unfold w. rewrite run_nesting. apply list_elem_of_here. }
  clearbody w.
  destruct Hfirst as (u & Hg & Hn & Hl & Hc & Hid).
  exists u. rewrite Hid.
  split; [exact Hg|]. split; [exact Hn|]. split; [exact Hl|]. split; [exact Hc|].
  split; [exact Hroot|].
  intros Hall. rewrite Forall_lookup in Hall. specialize (Hall 0 u Hn).
  rewrite Hc in Hall. by destruct Hall.
Qed.

(** ** Trees *)

(** Distinct ids: no two of the first [n] draws collide. *)
Lemma entropy_inj (e : nat → string) (n i j : nat) :
  NoDup (e <$> seq 0 n) → i < n → j < n → e i = e j → i = j.
Proof.
  intros Hnd Hi Hj Heq. rewrite NoDup_alt in Hnd. apply (Hnd i j (e i)).
  - by rewrite list_lookup_fmap, lookup_seq_lt.
  - by rewrite list_lookup_fmap, lookup_seq_lt, Heq.
Qed.

(** When no child is listed twice, a child has one parent. *)
Lemma NoDup_snd_functional {A B : Type} (l : list (A * B)) (c : B) (p q : A) :
  NoDup (snd <$> l) → (p, c) ∈ l → (q, c) ∈ l → p = q.
Proof.
  induction l as [|[a b] l IH]; intros Hnd Hp Hq.
  - by apply elem_of_nil in Hp.
  - rewrite fmap_cons in Hnd. apply NoDup_cons in Hnd as [Hb Hnd]. simpl in Hb.
    apply elem_of_cons in Hp as [Hp|Hp]; apply elem_of_cons in Hq as [Hq|Hq].
    + congruence.
    + exfalso. apply Hb. injection Hp as _ <-.
      by apply (list_elem_of_fmap_2' snd l (q, c)).
    + exfalso. apply Hb. injection Hq as _ <-.
      by apply (list_elem_of_fmap_2' snd l (p, c)).
    + by apply IH.
Qed.

(** A relation that climbs a rank has no cycle. *)
Lemma ranked_acyclic {A : Type} (R : relation A) (rank : A → nat) :
  (∀ x y, R x y → rank x < rank y) → ∀ x, ¬ tc R x x.
Proof.
  intros Hrank.
  assert (Hlt : ∀ x y, tc R x y → rank x < rank y).
  { induction 1 as [x y Hxy|x y z Hxy _ IH]; [by apply Hrank|].
    apply Hrank in Hxy. lia. }
  intros x Hx. apply Hlt in Hx. lia.
Qed.

Section Tree.
Context `{Package} (e : nat → string) (eng : bool) (fs : string → option file).

(** The children of the run's containment pairs are the images, under the
    ids, of a list of cluster names and node positions. *)
Lemma run_children :
  snd <$> nesting (final (run e eng fs)) =
  sum_map id e <$>
    [ inr 0; inl "cluster_AWS Cloud"; inl "cluster_Ingress Layer"; inr 1; inr 2;
      inl "cluster_VPC"; inr 3; inl "cluster_Private Subnet"; inr 4; inr 5; inr 6; inr 7;
      inl "cluster_Security Monitoring"; inr 8; inr 9; inr 10;
      inl "cluster_Cloud Janitor"; inr 11; inr 12; inr 13; inr 14 ].
Proof. rewrite run_nesting. reflexivity. Qed.

Lemma run_children_NoDup :
  NoDup (e <$> seq 0 15) → NoDup (snd <$> nesting (final (run e eng fs))).
Proof.
  intros Hnd. rewrite run_children.
  apply NoDup_fmap_2_strong.
  - intros x y Hx Hy Heq.
    assert (Hbound : ∀ z : string + nat,
              z ∈ [ inr 0; inl "cluster_AWS Cloud"; inl "cluster_Ingress Layer"; inr 1;
                    inr 2; inl "cluster_VPC"; inr 3; inl "cluster_Private Subnet"; inr 4;
                    inr 5; inr 6; inr 7; inl "cluster_Security Monitoring"; inr 8; inr 9;
                    inr 10; inl "cluster_Cloud Janitor"; inr 11; inr 12; inr 13; inr 14 ] →
              match z with inl _ => True | inr k => k < 15 end).
    { apply Forall_forall. repeat constructor. }
    apply Hbound in Hx. apply Hbound in Hy.
    destruct x as [s|i], y as [t|j]; simpl in Heq; try discriminate.
    + congruence.
    + f_equal. apply (entropy_inj e 15); [done..|congruence].
  - apply (bool_decide_unpack _). vm_compute. exact I.
Qed.

Lemma run_parent_rank (p c : string) :
  parent_in (final (run e eng fs)) p c → cluster_rank p < cluster_rank c.
Proof.
  unfold parent_in. rewrite run_nesting. intros Hin.
  repeat (apply elem_of_cons in Hin as [Heq|Hin];
          [try discriminate Heq; injection Heq as -> ->; vm_compute; lia|]).
  by apply elem_of_nil in Hin.
Qed.

End Tree.

(** C2.  The cluster containment the script builds is a tree.  With distinct
    node ids, no cluster and no node is listed twice among the children of
    the graph, so each has at most one parent and none is shared between two
    parents; the parent relation between clusters has no cycle; AWS Cloud
    contains Ingress Layer, VPC, Security Monitoring and Cloud Janitor (and
    the external node), VPC contains Private Subnet (and the dns_fw node);
    the [_parent] references on the heap say the same. *)
Theorem cluster_containment_is_a_tree `{Package}
    (e : nat → string) (eng : bool) (fs : string → option file) :
  NoDup (e <$> seq 0 15) →
  let w := final (run e eng fs) in
  NoDup (snd <$> nesting w)
  ∧ (∀ (c : string + string) (p q : option string),
       (p, c) ∈ nesting w → (q, c) ∈ nesting w → p = q)
  ∧ (∀ c : string, ¬ tc (parent_in w) c c)
  ∧ Some <$> children_of w None = [ inr <$> handle w "user"; Some (inl "cluster_AWS Cloud") ]
  ∧ Some <$> children_of w (Some "cluster_AWS Cloud") =
    [ Some (inl "cluster_Ingress Layer"); Some (inl "cluster_VPC");
      Some (inl "cluster_Security Monitoring"); Some (inl "cluster_Cloud Janitor");
      inr <$> handle w "external" ]
  ∧ Some <$> children_of w (Some "cluster_VPC") =
    [ inr <$> handle w "dns_fw"; Some (inl "cluster_Private Subnet") ]
  ∧ Some <$> children_of w (Some "cluster_Ingress Layer") =
    [ inr <$> handle w "waf"; inr <$> handle w "cloudfront" ]
  ∧ Some <$> children_of w (Some "cluster_Private Subnet") =
    [ inr <$> handle w "ec2"; inr <$> handle w "docker"; inr <$> handle w "iam";
      inr <$> handle w "secrets" ]
  ∧ Some <$> children_of w (Some "cluster_Security Monitoring") =
    [ inr <$> handle w "inspector"; inr <$> handle w "detective";
      inr <$> handle w "cloudwatch" ]
  ∧ Some <$> children_of w (Some "cluster_Cloud Janitor") =
    [ inr <$> handle w "ssm"; inr <$> handle w "eventbridge";
      inr <$> handle w "janitor_lambda" ]
  ∧ parent_labels w =
    [ ("AWS Cloud", None); ("Ingress Layer", Some "AWS Cloud"); ("VPC", Some "AWS Cloud");
      ("Private Subnet", Some "VPC"); ("Security Monitoring", Some "AWS Cloud");
      ("Cloud Janitor", Some "AWS Cloud") ].
Proof.
  intros Hnd w. subst w.
  pose proof (run_children_NoDup e eng fs Hnd) as Hchildren.
  split; [exact Hchildren|].
  split; [intros c p q; by apply NoDup_snd_functional|].
  split; [apply (ranked_acyclic _ cluster_rank), run_parent_rank|].
  clear Hnd Hchildren.
  repeat split; destruct eng; vm_compute; reflexivity.
Qed.

(** The tree theorem at sample inputs. *)
Lemma cluster_containment_is_a_tree_witness :
  NoDup (hex_a <$> seq 0 15)
  ∧ NoDup (snd <$> nesting (final (run (H := sample) hex_a true no_files)))
  ∧ (∀ (c : string + string) (p q : option string),
       (p, c) ∈ nesting (final (run (H := sample) hex_a true no_files)) →
       (q, c) ∈ nesting (final (run (H := sample) hex_a true no_files)) → p = q)
  ∧ (∀ c : string, ¬ tc (parent_in (final (run (H := sample) hex_a true no_files))) c c).
Proof.
  assert (Hnd : NoDup (hex_a <$> seq 0 15)).
  { apply (bool_decide_unpack _). vm_compute. exact I. }
  split; [exact Hnd|].
  destruct (cluster_containment_is_a_tree (H := sample) hex_a true no_files Hnd)
    as (Hchildren & Hparent & Hcycle & _).
  split; [exact Hchildren|]. split; [exact Hparent | exact Hcycle].
Defined.

(** ** The reversed operator *)

Section Reversed.
Context `{Package}.




End Reversed.

Section Secrets.
Context `{Package} (e : nat → string) (eng : bool) (fs : string → option file).

(** The edge list of a run, record by record; the sixth record, made by
    line 68, has [dir=back] and the colour given there. *)
Lemma run_edge_list :
  ∃ a0 a1 a2 a3 a4 a5 a6 a7 a8 a9 a10 a11 a12 : attrs,
    edge_list (final (run e eng fs)) =
    [ (e 0, e 1, a0); (e 1, e 2, a1); (e 2, e 4, a2); (e 4, e 5, a3); (e 4, e 6, a4);
      (e 4, e 7, a5); (e 5, e 3, a6); (e 3, e 14, a7); (e 4, e 8, a8); (e 4, e 9, a9);
      (e 4, e 10, a10); (e 12, e 13, a11); (e 11, e 4, a12) ]
    ∧ getitem "dir" a5 = Some "back"
    ∧ getitem "color" a5 = Some "darkgreen".
Proof.
  destruct eng; do 13 eexists; (split; [vm_compute; reflexivity|]); split; reflexivity.
Qed.

End Secrets.

(** Two drawn ids with different positions do not join the way [joins]
    asks. *)
Ltac not_joined Hnd :=
  let Hj := fresh "Hj" in
  let H1 := fresh "H1" in
  let H2 := fresh "H2" in
  intros Hj; destruct Hj as [[H1 H2]|[H1 H2]]; simpl in H1, H2;
  first [ apply (entropy_inj _ 15 _ _ Hnd) in H1; [discriminate H1 | lia | lia]
        | apply (entropy_inj _ 15 _ _ Hnd) in H2; [discriminate H2 | lia | lia] ].

(** C10.  The single edge between the secrets node and the ec2 node points
    from secrets to ec2.  With distinct node ids, exactly one record of the
    edge list joins the two nodes; it is the record line 68 makes with the
    reversed operator: graphviz holds it as [ec2 -> secrets] with
    [dir=back], so the arrow it stands for starts at secrets and points to
    ec2, and not the other way round; it carries the colour darkgreen. *)
Theorem secrets_edge_points_to_ec2 `{Package}
    (e : nat → string) (eng : bool) (fs : string → option file) :
  NoDup (e <$> seq 0 15) →
  let w := final (run e eng fs) in
  ∃ (s c : string) (a : attrs),
    handle w "secrets" = Some s
    ∧ handle w "ec2" = Some c
    ∧ filter (joins s c) (edge_list w) = [(c, s, a)]
    ∧ getitem "dir" a = Some "back"
    ∧ getitem "color" a = Some "darkgreen"
    ∧ arrows (c, s, a) = [(s, c)]
    ∧ flat_map arrows (filter (joins s c) (edge_list w)) = [(s, c)].
Proof.
  intros Hnd w.
  assert (Hs : handle w "secrets" = Some (e 7)) by (subst w; destruct eng; vm_compute; reflexivity).
  assert (Hc : handle w "ec2" = Some (e 4)) by (subst w; destruct eng; vm_compute; reflexivity).
  destruct (run_edge_list e eng fs)
    as (a0 & a1 & a2 & a3 & a4 & a5 & a6 & a7 & a8 & a9 & a10 & a11 & a12 & Hl & Hdir & Hcol).
  fold w in Hl. clearbody w.
  assert (Harrow : arrows (e 4, e 7, a5) = [(e 7, e 4)]).
  { unfold arrows. rewrite Hdir. reflexivity. }
  assert (Hfilter : filter (joins (e 7) (e 4)) (edge_list w) = [(e 4, e 7, a5)]).
  { rewrite Hl.
    do 5 (rewrite filter_cons_False by (not_joined Hnd)).
    rewrite filter_cons_True by (right; split; reflexivity).
    do 7 (rewrite filter_cons_False by (not_joined Hnd)).
    reflexivity. }
  exists (e 7), (e 4), a5.
  split; [exact Hs|]. split; [exact Hc|]. split; [exact Hfilter|].
  split; [exact Hdir|]. split; [exact Hcol|]. split; [exact Harrow|].
  rewrite Hfilter. cbn [flat_map]. rewrite Harrow. reflexivity.
Qed.

(** The theorem on the secrets edge at sample inputs. *)
Lemma secrets_edge_points_to_ec2_witness :
  NoDup (hex_a <$> seq 0 15)
  ∧ ∃ (s c : string) (a : attrs),
      handle (final (run (H := sample) hex_a true no_files)) "secrets" = Some s
      ∧ handle (final (run (H := sample) hex_a true no_files)) "ec2" = Some c
      ∧ filter (joins s c) (edge_list (final (run (H := sample) hex_a true no_files)))
        = [(c, s, a)]
      ∧ getitem "dir" a = Some "back"
      ∧ getitem "color" a = Some "darkgreen"
      ∧ arrows (c, s, a) = [(s, c)]
      ∧ flat_map arrows
          (filter (joins s c) (edge_list (final (run (H := sample) hex_a true no_files))))
        = [(s, c)].
Proof.
  assert (Hnd : NoDup (hex_a <$> seq 0 15)).
  { apply (bool_decide_unpack _). vm_compute. exact I. }
  split; [exact Hnd|].
  exact (secrets_edge_points_to_ec2 (H := sample) hex_a true no_files Hnd).
Defined.

(** ** Two runs *)

Lemma transport_drawn (e1 e2 : nat → string) (n k : nat) :
  NoDup (e1 <$> seq 0 n) → k < n → transport e1 e2 n (e1 k) = e2 k.
Proof.
  intros Hnd Hk. unfold transport.
  destruct (list_find (λ i, e1 i = e1 k) (seq 0 n)) as [[i k']|] eqn:Hfind.
  - apply list_find_Some in Hfind as (Hi & Heq & _).
    apply lookup_seq in Hi as [-> Hi]. simpl in *.
    f_equal. by apply (entropy_inj e1 n).
  - apply list_find_None in Hfind. rewrite Forall_forall in Hfind.
    exfalso. apply (Hfind k); [|reflexivity]. apply elem_of_seq. lia.
Qed.

Section TwoRuns.
Context `{Package} (e1 e2 : nat → string) (eng : bool) (fs1 fs2 : string → option file).

(** Every name in the graph of a run is one of its fifteen ids. *)
Lemma run_names (g : Digraph) :
  graph_of (final (run e1 eng fs1)) = Some g →
  Forall (λ x, x ∈ e1 <$> seq 0 15) (flat_map names_in (dg_body g)).
Proof.
  intros Hg.
  assert (Hnames : flat_map names_in <$> (dg_body <$> graph_of (final (run e1 eng fs1))) =
    Some ((e1 <$> seq 0 15) ++
          [ e1 0; e1 1; e1 1; e1 2; e1 2; e1 4; e1 4; e1 5; e1 4; e1 6; e1 4; e1 7;
            e1 5; e1 3; e1 3; e1 14; e1 4; e1 8; e1 4; e1 9; e1 4; e1 10;
            e1 12; e1 13; e1 11; e1 4 ]))
    by (destruct eng; vm_compute; reflexivity).
  rewrite Hg in Hnames. simpl in Hnames. injection Hnames as ->.
  repeat (apply Forall_cons; split; [apply drawn_elem_of; lia|]). apply Forall_nil_2.
Qed.

(** A renaming that follows the draws turns the graph of the first run into
    the graph of the second. *)
Lemma run_graph_renamed (ρ : string → string) :
  (∀ k, k < 15 → ρ (e1 k) = e2 k) →
  rename_graph ρ <$> graph_of (final (run e1 eng fs1)) = graph_of (final (run e2 eng fs2)).
Proof.
  intros Hρ.
  assert (H0 := Hρ 0 ltac:(lia)). assert (H1 := Hρ 1 ltac:(lia)).
  assert (H2 := Hρ 2 ltac:(lia)). assert (H3 := Hρ 3 ltac:(lia)).
  assert (H4 := Hρ 4 ltac:(lia)). assert (H5 := Hρ 5 ltac:(lia)).
  assert (H6 := Hρ 6 ltac:(lia)). assert (H7 := Hρ 7 ltac:(lia)).
  assert (H8 := Hρ 8 ltac:(lia)). assert (H9 := Hρ 9 ltac:(lia)).
  assert (H10 := Hρ 10 ltac:(lia)). assert (H11 := Hρ 11 ltac:(lia)).
  assert (H12 := Hρ 12 ltac:(lia)). assert (H13 := Hρ 13 ltac:(lia)).
  assert (H14 := Hρ 14 ltac:(lia)).
  clear Hρ.
  destruct eng; vm_compute;
    rewrite H0, H1, H2, H3, H4, H5, H6, H7, H8, H9, H10, H11, H12, H13, H14; reflexivity.
Qed.

Lemma run_graph_is_some : is_Some (graph_of (final (run e1 eng fs1))).
Proof. destruct eng; vm_compute; eauto. Qed.

(** With the engine installed the image the run leaves is the rendering of
    the graph of the diagram. *)
Lemma run_image :
  files (final (run e1 true fs1)) image_path =
  Image "png" <$> graph_of (final (run e1 eng fs1)).
Proof. destruct eng; vm_compute; reflexivity. Qed.

End TwoRuns.

(** C6.  Building the same description twice is deterministic.  Two runs of
    the script differ in the ids [uuid4] hands out (and may start from
    different directories); when neither run draws the same id twice, each
    ends with a graph, and the two graphs are equivalent: one renaming of
    node names, confusing no two names of the first graph, turns the first
    into the second, with clusters, nodes, edges, attributes and their order
    all equal.  With the engine installed, the image each run leaves is the
    rendering of its graph, so the layout engine is given equivalent
    descriptions; what the engine draws from them is outside the script. *)
Theorem build_is_deterministic `{Package}
    (e1 e2 : nat → string) (eng : bool) (fs1 fs2 : string → option file) :
  NoDup (e1 <$> seq 0 15) →
  NoDup (e2 <$> seq 0 15) →
  ∃ g1 g2 : Digraph,
    graph_of (final (run e1 eng fs1)) = Some g1
    ∧ graph_of (final (run e2 eng fs2)) = Some g2
    ∧ equivalent g1 g2
    ∧ files (final (run e1 true fs1)) image_path = Some (Image "png" g1)
    ∧ files (final (run e2 true fs2)) image_path = Some (Image "png" g2).
Proof.
  intros Hnd1 Hnd2.
  destruct (run_graph_is_some e1 eng fs1) as [g1 Hg1].
  destruct (run_graph_is_some e2 eng fs2) as [g2 Hg2].
  exists g1, g2.
  split; [exact Hg1|]. split; [exact Hg2|]. split.
  - exists (transport e1 e2 15). split.
    + intros x y Hx Hy Heq.
      pose proof (run_names e1 eng fs1 g1 Hg1) as Hnames. rewrite Forall_forall in Hnames.
      apply Hnames, list_elem_of_fmap in Hx as (i & -> & Hi).
      apply Hnames, list_elem_of_fmap in Hy as (j & -> & Hj).
      apply elem_of_seq in Hi, Hj.
      rewrite (transport_drawn e1 e2 15 i Hnd1), (transport_drawn e1 e2 15 j Hnd1) in Heq
        by lia.
      f_equal. apply (entropy_inj e2 15); [done|lia|lia|done].
    + pose proof (run_graph_renamed e1 e2 eng fs1 fs2 (transport e1 e2 15)) as Hren.
      rewrite Hg1, Hg2 in Hren. simpl in Hren.
      assert (Some (rename_graph (transport e1 e2 15) g1) = Some g2) as [= ->];
        [|reflexivity].
      apply Hren. intros k Hk. exact (transport_drawn e1 e2 15 k Hnd1 Hk).
  - split.
    + rewrite (run_image e1 eng fs1), Hg1. reflexivity.
    + rewrite (run_image e2 eng fs2), Hg2. reflexivity.
Qed.

(** The determinism theorem at sample inputs: two runs with different ids. *)
Lemma build_is_deterministic_witness :
  NoDup (hex_a <$> seq 0 15)
  ∧ NoDup (hex_b <$> seq 0 15)
  ∧ ∃ g1 g2 : Digraph,
      graph_of (final (run (H := sample) hex_a true no_files)) = Some g1
      ∧ graph_of (final (run (H := sample) hex_b true no_files)) = Some g2
      ∧ equivalent g1 g2
      ∧ files (final (run (H := sample) hex_a true no_files)) image_path
        = Some (Image "png" g1)
      ∧ files (final (run (H := sample) hex_b true no_files)) image_path
        = Some (Image "png" g2).
Proof.
  assert (Hnda : NoDup (hex_a <$> seq 0 15)).
  { apply (bool_decide_unpack _). vm_compute. exact I. }
  assert (Hndb : NoDup (hex_b <$> seq 0 15)).
  { apply (bool_decide_unpack _). vm_compute. exact I. }
  split; [exact Hnda|]. split; [exact Hndb|].
  exact (build_is_deterministic (H := sample) hex_a hex_b true no_files no_files Hnda Hndb).
Defined.

(** ** The working directory *)

Section Files.
Context `{Package} (e : nat → string) (fs : string → option file).

Lemma run_files :
  files (final (run e true fs)) =
  match graph_of (final (run e true fs)) with
  | Some g =>
      remove_file source_path
        (write_file image_path (Image "png" g) (write_file source_path (DotSource g) fs))
  | None => fs
  end.
Proof. vm_compute. reflexivity. Qed.

Lemma run_files_without_engine :
  files (final (run e false fs)) =
  match graph_of (final (run e false fs)) with
  | Some g => write_file source_path (DotSource g) fs
  | None => fs
  end.
Proof. vm_compute. reflexivity. Qed.

End Files.

(** With the layout engine installed the script returns, and the only path
    of the working directory it leaves changed, besides removing the DOT
    source it saved on the way, is the image: a file named after the title
    (lower case, blanks to underscores) with the default format [png] as its
    extension, holding the rendering of the graph of the diagram. *)
Theorem script_leaves_one_image `{Package} (e : nat → string) (fs : string → option file) :
  returned (run e true fs) = Some tt
  ∧ source_path = lower (join "_" (split "OpenClaw Security Architecture"))
  ∧ image_path = source_path +:+ "." +:+ "png"
  ∧ ∃ g : Digraph,
      graph_of (final (run e true fs)) = Some g
      ∧ ∀ p : string,
          files (final (run e true fs)) p =
          if String.eqb p image_path then Some (Image "png" g)
          else if String.eqb p source_path then None
          else fs p.
Proof.
  split; [apply run_returns|]. split; [reflexivity|]. split; [reflexivity|].
  destruct (run_graph_is_some e true fs) as [g Hg]. exists g. split; [exact Hg|].
  intros p. rewrite (run_files e fs), Hg. unfold remove_file, write_file.
  destruct (String.eqb_spec p image_path) as [->|_]; [reflexivity|].
  destruct (String.eqb p source_path); reflexivity.
Qed.

(** Without the layout engine the script raises [ExecutableNotFound] when
    the [with Diagram] block is left: the graph is built all the same, no
    image is written, and the DOT source saved for the engine stays behind. *)
Theorem script_without_engine `{Package} (e : nat → string) (fs : string → option file) :
  (∃ w, run e false fs = Raise ExecutableNotFound w)
  ∧ graph_of (final (run e false fs)) = graph_of (final (run e true fs))
  ∧ files (final (run e false fs)) image_path = fs image_path
  ∧ files (final (run e false fs)) source_path =
    DotSource <$> graph_of (final (run e false fs)).
Proof.
  split; [apply run_without_engine|].
  split; [vm_compute; reflexivity|].
  destruct (run_graph_is_some e false fs) as [g Hg].
  rewrite (run_files_without_engine e fs), Hg. split; reflexivity.
Qed.

(** ** Statements that only add edges *)

Lemma grown_by_edges_refl (d : Diagrams.Diagram) : grown_by_edges d d.
Proof.
  exists []. split; [constructor|].
  destruct d as [n f [gn gf gs ga na ea b] o sh al]. unfold on_d_dot, extend. simpl.
  by rewrite app_nil_r.
Qed.

Lemma grown_by_edges_trans (d1 d2 d3 : Diagrams.Diagram) :
  grown_by_edges d1 d2 → grown_by_edges d2 d3 → grown_by_edges d1 d3.
Proof.
  intros (es1 & H1 & ->) (es2 & H2 & ->). exists (es1 ++ es2).
  split; [by apply Forall_app|].
  unfold on_d_dot, extend. simpl. by rewrite app_assoc.
Qed.

Lemma grown_by_edges_all (l : list Diagrams.Diagram) : Forall2 grown_by_edges l l.
Proof. induction l; constructor; [apply grown_by_edges_refl | done]. Qed.

Lemma edges_only_refl (w : world) : edges_only w w.
Proof. split; [reflexivity | apply grown_by_edges_all]. Qed.

Lemma edges_only_trans (w1 w2 w3 : world) :
  edges_only w1 w2 → edges_only w2 w3 → edges_only w1 w3.
Proof.
  intros [Hr1 Hd1] [Hr2 Hd2]. split; [congruence|].
  eapply Forall2_trans; [|exact Hd1|exact Hd2].
  intros x y z. apply grown_by_edges_trans.
Qed.

Section OnlyEdges.
Context `{Package}.

Lemma eo_ret {A : Type} (a : A) : only_adds_edges (mret a).
Proof. intros w. apply edges_only_refl. Qed.

Lemma eo_bind {A B : Type} (m : M A) (f : A → M B) :
  only_adds_edges m → (∀ a, only_adds_edges (f a)) → only_adds_edges (m ≫= f).
Proof.
  intros Hm Hf w. specialize (Hm w). unfold mbind, M_bind.
  destruct (m w) as [a w'|e w']; simpl in *; [|exact Hm].
  eapply edges_only_trans; [exact Hm | apply Hf].
Qed.

Lemma eo_fmap {A B : Type} (g : A → B) (m : M A) :
  only_adds_edges m → only_adds_edges (g <$> m).
Proof.
  intros Hm w. specialize (Hm w). unfold fmap, M_fmap.
  by destruct (m w).
Qed.

Lemma eo_Diagram_connect (self : DiagramRef) (node node2 : Node) (edge : Diagrams.Edge) :
  only_adds_edges (Diagram_connect self node node2 edge).
Proof.
  intros w. unfold Diagram_connect, write_diagram, read_diagram, mbind, M_bind.
  destruct (diagrams w !! dref self) as [d|] eqn:Hd; [|apply edges_only_refl].
  split; [reflexivity|]. simpl.
  rewrite <- (list_insert_id (diagrams w) (dref self) d Hd) at 1.
  apply Forall2_insert.
  - apply grown_by_edges_all.
  - exists [SEdge (n_id node) (n_id node2) (Edge_attrs edge)].
    split; [repeat constructor | reflexivity].
Qed.

Lemma eo_Node_connect (self node : Node) (edge : Diagrams.Edge) :
  only_adds_edges (Node_connect self node edge).
Proof.
  unfold Node_connect. apply eo_bind; [apply eo_Diagram_connect | intros; apply eo_ret].
Qed.

Lemma eo_Edge_connect (self : Diagrams.Edge) (other : operand) :
  only_adds_edges (Edge_connect self other).
Proof.
  destruct other as [n|o]; simpl; [|apply eo_ret].
  destruct (e_node self); [apply eo_fmap, eo_Node_connect | apply eo_ret].
Qed.

Lemma eo_Node_rshift (self : Node) (other : operand) :
  only_adds_edges (Node_rshift self other).
Proof. destruct other; simpl; [apply eo_fmap, eo_Node_connect | apply eo_ret]. Qed.

Lemma eo_Node_lshift (self : Node) (other : operand) :
  only_adds_edges (Node_lshift self other).
Proof.
  destruct other; unfold Node_lshift; [apply eo_fmap, eo_Node_connect | apply eo_Edge_connect].
Qed.

Lemma eo_rshift (x y : M operand) :
  only_adds_edges x → only_adds_edges y → only_adds_edges (rshift x y).
Proof.
  intros Hx Hy. unfold rshift. apply eo_bind; [done|]. intros a.
  apply eo_bind; [done|]. intros b.
  destruct a; [apply eo_Node_rshift | apply eo_Edge_connect].
Qed.

Lemma eo_lshift (x y : M operand) :
  only_adds_edges x → only_adds_edges y → only_adds_edges (lshift x y).
Proof.
  intros Hx Hy. unfold lshift. apply eo_bind; [done|]. intros a.
  apply eo_bind; [done|]. intros b.
  destruct a; [apply eo_Node_lshift | apply eo_Edge_connect].
Qed.

Lemma eo_name (x : string) : only_adds_edges (name x).
Proof. intros w. unfold name. destruct (globals w !! x); apply edges_only_refl. Qed.

Lemma eo_Edge (kw : attrs) : only_adds_edges (Edge kw).
Proof. apply eo_ret. Qed.

Lemma eo_stmt_expr (e : M operand) : only_adds_edges e → only_adds_edges (stmt_expr e).
Proof. intros He. unfold stmt_expr. apply eo_bind; [done | intros; apply eo_ret]. Qed.

Lemma eo_block (l : list (M operand)) :
  Forall (λ e, only_adds_edges (stmt_expr e)) l → only_adds_edges (block l).
Proof.
  induction 1 as [|e l He _ IH]; simpl; [apply eo_ret|].
  apply eo_bind; [done | intros; exact IH].
Qed.

End OnlyEdges.

Ltac edges_only :=
  repeat match goal with
         | |- only_adds_edges (stmt_expr _) => apply eo_stmt_expr
         | |- only_adds_edges (rshift _ _) => apply eo_rshift
         | |- only_adds_edges (lshift _ _) => apply eo_lshift
         | |- only_adds_edges (name _) => apply eo_name
         | |- only_adds_edges (Edge _) => apply eo_Edge
         end.

(** The data-flow statements of lines 60-80 do nothing but add edges.  Run
    in any world, whether they return or raise, each of them (and the block
    of all ten) constructs no node and no cluster, binds no name, draws no
    id, touches no file and leaves both context variables as they are; every
    diagram object keeps its attributes and its body, to which only edge
    statements are added at the end. *)
Theorem data_flows_only_add_edges `{Package} :
  Forall (λ s, only_adds_edges (stmt_expr s)) data_flows
  ∧ only_adds_edges (block data_flows)
  ∧ (∀ w : world,
       let w' := final (block data_flows w) in
       nodes w' = nodes w ∧ clusters w' = clusters w ∧ globals w' = globals w
       ∧ drawn w' = drawn w ∧ files w' = files w
       ∧ ctx_diagram w' = ctx_diagram w ∧ ctx_cluster w' = ctx_cluster w
       ∧ length (diagrams w') = length (diagrams w)).
Proof.
  assert (Hflows : Forall (λ s, only_adds_edges (stmt_expr s)) data_flows).
  { unfold data_flows, user, waf, cloudfront, ec2, docker, iam, secrets, dns_fw, external,
      inspector, detective, cloudwatch, eventbridge, janitor_lambda, ssm.
    repeat (apply Forall_cons; split; [solve [edges_only]|]). constructor. }
  split; [exact Hflows|].
  pose proof (eo_block data_flows Hflows) as Hblock.
  split; [exact Hblock|].
  intros w w'. destruct (Hblock w) as [Hrest Hdiagrams]. fold w' in Hrest, Hdiagrams.
  clearbody w'. unfold rest_of in Hrest.
  injection Hrest as Hc Hn Hcd Hcc Hg _ Hdr _ Hf.
  apply Forall2_length in Hdiagrams.
  repeat split; congruence.
Qed.

(** ** Chains of [>>] *)

Section Chains.
Context `{Package}.

Lemma getitem_other_kwargs (k : string) (kw : attrs) :
  k = "label" ∨ k = "color" ∨ k = "style" → getitem k (other_kwargs kw) = None.
Proof.
  intros Hk. unfold other_kwargs. induction kw as [|[k' v] kw IH]; [reflexivity|].
  rewrite filter_cons. destruct (decide _) as [Hk'|Hk']; [|exact IH].
  cbn [getitem]. simpl in Hk'.
  destruct (String.eqb_spec k k') as [<-|_]; [|exact IH].
  exfalso. by apply Hk'.
Qed.

(** What [Edge(...)] was given is what the edge carries. *)
Lemma styled_attrs_given (kw : attrs) (forward reverse : bool) (k : string) :
  k = "label" ∨ k = "color" ∨ k = "style" →
  kwarg k kw ≠ "" →
  getitem k (styled_attrs kw forward reverse) = Some (kwarg k kw).
Proof.
  intros Hk Hgiven. unfold styled_attrs, Edge_attrs, Edge_new. cbn [e_attrs].
  assert (Hdir : k ≠ "dir") by (destruct Hk as [->|[->| ->]]; discriminate).
  rewrite (getitem_setitem_ne k "dir") by exact Hdir.
  rewrite getitem_update, (getitem_other_kwargs k kw Hk). cbn [from_option].
  destruct Hk as [->|[->| ->]].
  - destruct (String.eqb_spec (kwarg "label" kw) "") as [Heq|_]; [done|].
    destruct (String.eqb (kwarg "style" kw) ""), (String.eqb (kwarg "color" kw) "");
      rewrite ?(getitem_setitem_ne "label" "style"), ?(getitem_setitem_ne "label" "color")
        by discriminate; apply getitem_setitem_eq.
  - destruct (String.eqb_spec (kwarg "color" kw) "") as [Heq|_]; [done|].
    destruct (String.eqb (kwarg "style" kw) "");
      rewrite ?(getitem_setitem_ne "color" "style") by discriminate;
      apply getitem_setitem_eq.
  - destruct (String.eqb_spec (kwarg "style" kw) "") as [Heq|_]; [done|].
    apply getitem_setitem_eq.
Qed.


(** A plain edge carries the direction and the defaults of the package. *)
Lemma plain_attrs_lookup (k : string) :
  getitem k plain_attrs = if String.eqb k "dir" then Some "forward"
                          else getitem k Edge_default_attrs.
Proof.
  unfold plain_attrs, Edge_attrs, Edge_new. cbn [e_attrs String.eqb direction_of e_forward
    e_reverse andb].
  destruct (String.eqb_spec k "dir") as [->|Hne].
  - apply getitem_setitem_eq.
  - rewrite getitem_setitem_ne by exact Hne.
    unfold update. cbn [app]. by rewrite app_nil_r.
Qed.

(** One hop: [Node.connect] on a node of a diagram of the heap returns the
    other node and adds one record to that diagram, which stays on the
    heap. *)
Lemma hop (w : world) (a b : Node) (edge : Diagrams.Edge) (d : Diagrams.Diagram) :
  diagrams w !! dref (n_diagram a) = Some d →
  ∃ w1, Node_connect a b edge w = Ok b w1
      ∧ edges_of w1 (n_diagram a) =
        edges_of w (n_diagram a) ++ [(n_id a, n_id b, Edge_attrs edge)]
      ∧ length (diagrams w1) = length (diagrams w).
Proof.
  intros Hd.
  unfold Node_connect, Diagram_connect, write_diagram, read_diagram, mbind, M_bind.
  rewrite Hd. simpl. eexists. split; [reflexivity|]. split.
  - unfold edges_of, body_of. simpl.
    rewrite list_lookup_insert_eq by (eapply lookup_lt_Some; exact Hd).
    rewrite Hd. simpl. by rewrite flat_map_app.
  - simpl. apply length_insert.
Qed.

Lemma rshift_after_node (x : M operand) (w w1 : world) (b c : Node) :
  x w = Ok (ONode b) w1 →
  rshift x (mret (ONode c)) w =
  (ONode <$> Node_connect b c (Edge_new (Some b) true false "" "" "" [])) w1.
Proof. intros Hx. unfold rshift, mbind, M_bind. rewrite Hx. reflexivity. Qed.


(** The run of [a >> b]. *)
Lemma plain_hop (x : M operand) (w w0 : world) (a b : Node) (d : Diagrams.Diagram) :
  x w0 = Ok (ONode a) w →
  diagrams w !! dref (n_diagram a) = Some d →
  ∃ w1, (x >> mret (ONode b)) w0 = Ok (ONode b) w1
      ∧ edges_of w1 (n_diagram a) = edges_of w (n_diagram a) ++ [(n_id a, n_id b, plain_attrs)]
      ∧ length (diagrams w1) = length (diagrams w).
Proof.
  intros Hx Hd. rewrite (rshift_after_node x w0 w a b Hx).
  destruct (hop w a b (Edge_new (Some a) true false "" "" "" []) d Hd)
    as (w1 & Hc & Hedges & Hlen).
  exists w1. unfold fmap, M_fmap. rewrite Hc.
  split; [reflexivity|]. split; [exact Hedges | exact Hlen].
Qed.

End Chains.



(** [a >> b >> c], as on line 71: for any three nodes, the first two of one
    diagram on the heap, the statement returns [c] and adds the two records
    [a -> b] and [b -> c], in that order, both with the attributes of a
    plain edge; read as arrows they run from [a] to [b] and from [b] to
    [c]. *)
Theorem plain_chain `{Package} (w : world) (a b c : Node) (d : Diagrams.Diagram) :
  n_diagram b = n_diagram a →
  diagrams w !! dref (n_diagram a) = Some d →
  let r := (mret (ONode a) >> mret (ONode b) >> mret (ONode c)) w in
  returned r = Some (ONode c)
  ∧ edges_of (final r) (n_diagram a) =
    edges_of w (n_diagram a) ++ [(n_id a, n_id b, plain_attrs); (n_id b, n_id c, plain_attrs)]
  ∧ flat_map arrows [(n_id a, n_id b, plain_attrs); (n_id b, n_id c, plain_attrs)] =
    [(n_id a, n_id b); (n_id b, n_id c)].
Proof.
  intros Hsame Hd r. subst r.
  destruct (plain_hop (@mret M M_ret operand (ONode a)) w w a b d eq_refl Hd)
    as (w1 & Hrun & Hedges & Hlen).
  assert (Hlive : is_Some (diagrams w1 !! dref (n_diagram b))).
  { apply lookup_lt_is_Some. rewrite Hsame, Hlen. eapply lookup_lt_Some. exact Hd. }
  destruct Hlive as [d1 Hd1].
  destruct (plain_hop _ w1 w b c d1 Hrun Hd1) as (w2 & -> & Hedges2 & _).
  split; [reflexivity|]. split.
  - simpl. rewrite Hsame in Hedges2. rewrite Hedges2, Hedges, <- app_assoc. reflexivity.
  - cbn [flat_map]. unfold arrows. rewrite plain_attrs_lookup. reflexivity.
Qed.

(** The four chains in the small world, with the sample tables. *)
Section ChainWitnesses.
#[local] Existing Instance sample.



Lemma plain_chain_witness :
  n_diagram (demo_node "b") = n_diagram (demo_node "a")
  ∧ diagrams demo_world !! dref (n_diagram (demo_node "a")) = Some demo_diagram
  ∧ edges_of (final ((mret (ONode (demo_node "a")) >> mret (ONode (demo_node "b"))
                      >> mret (ONode (demo_node "c"))) demo_world)) (DRef 0) =
    [ ("a", "b", plain_attrs); ("b", "c", plain_attrs) ].
Proof.
  split; [reflexivity|]. split; [reflexivity|].
  exact (proj1 (proj2 (plain_chain demo_world (demo_node "a") (demo_node "b")
                         (demo_node "c") demo_diagram eq_refl eq_refl))).
Defined.


End ChainWitnesses.

(** ** Statements run out of place *)

Section OutOfPlace.
Context `{Package}.

Lemma bind_raise {A B : Type} (m : M A) (f : A → M B) (w w' : world) (e : exn) :
  m w = Raise e w' → (m ≫= f) w = Raise e w'.
Proof. intros Hm. unfold mbind, M_bind. by rewrite Hm. Qed.

Lemma rshift_raise (x y : M operand) (w w' : world) (e : exn) :
  x w = Raise e w' → (x >> y) w = Raise e w'.
Proof. intros Hx. unfold rshift. by apply bind_raise. Qed.

Lemma name_unbound (x : string) (w : world) :
  globals w !! x = None → name x w = Raise (NameError x) w.
Proof. intros Hx. unfold name. by rewrite Hx. Qed.

(** [Node.__init__] outside a diagram: the id is drawn, then the
    constructor raises; no object is made. *)
Lemma Node_new_outside (cls : NodeClass) (label : string) (a : attrs) (w : world) :
  ctx_diagram w = None →
  Node_new cls label None a w =
  Raise (EnvironmentError "Global diagrams context not set up") (with_drawn (S (drawn w)) w).
Proof.
  intros Hctx. unfold Node_new, uuid4_hex, getdiagram, gets, mbind, M_bind.
  cbn [ctx_diagram with_drawn]. rewrite Hctx. reflexivity.
Qed.

End OutOfPlace.

(** The data flows of lines 60-80 need the names of lines 22-58.  Run in a
    world where [user] is not bound, the block raises [NameError] for that
    name at the first operand of the first statement, before any edge is
    made: the world is left exactly as it was. *)
Theorem data_flows_need_the_names `{Package} (w : world) :
  globals w !! "user" = None →
  block data_flows w = Raise (NameError "user") w.
Proof.
  intros Huser. unfold data_flows. cbn [block].
  apply bind_raise. unfold stmt_expr. apply bind_raise.
  do 4 apply rshift_raise.
  unfold user. by apply name_unbound.
Qed.

Lemma data_flows_need_the_names_witness :
  globals (boot hex_a true no_files) !! "user" = None
  ∧ block (data_flows (H := sample)) (boot hex_a true no_files)
    = Raise (NameError "user") (boot hex_a true no_files).
Proof.
  split; [reflexivity|].
  exact (data_flows_need_the_names (H := sample) (boot hex_a true no_files) eq_refl).
Defined.

(** The node constructions of lines 22-58 need the [with Diagram] of line
    20.  Run in a world with no current diagram, the declarations raise
    [EnvironmentError] at the first node construction: one id has been
    drawn by then, and no node, no cluster and no name has been made. *)
Theorem declarations_need_a_diagram `{Package} (w : world) :
  ctx_diagram w = None →
  declarations w =
  Raise (EnvironmentError "Global diagrams context not set up") (with_drawn (S (drawn w)) w).
Proof.
  intros Hctx. unfold declarations.
  apply bind_raise. unfold assign. apply bind_raise.
  unfold User, Node_call. by apply Node_new_outside.
Qed.

Lemma declarations_need_a_diagram_witness :
  ctx_diagram (boot hex_a true no_files) = None
  ∧ declarations (H := sample) (boot hex_a true no_files) =
    Raise (EnvironmentError "Global diagrams context not set up")
          (with_drawn 1 (boot hex_a true no_files)).
Proof.
  split; [reflexivity|].
  exact (declarations_need_a_diagram (H := sample) (boot hex_a true no_files) eq_refl).
Defined.

(** What the script hands to graphviz for each of its thirteen edges, in
    order, whatever the tables of the package hold: the label HTTPS on the
    first hop of line 63 only, the label spawn on line 66, the dotted style
    on line 67, the colour darkgreen with the reversed direction on line 68,
    the dashed style with the colour gray on lines 74 to 76, and the
    attributes of a plain edge everywhere else. *)
Theorem edge_attributes `{Package}
    (e : nat → string) (eng : bool) (fs : string → option file) :
  snd <$> edge_list (final (run e eng fs)) =
  [ styled_attrs [("label", "HTTPS")] true false; plain_attrs; plain_attrs;
    styled_attrs [("label", "spawn")] true false;
    styled_attrs [("style", "dotted")] true false;
    styled_attrs [("color", "darkgreen")] false true;
    plain_attrs; plain_attrs;
    styled_attrs [("style", "dashed"); ("color", "gray")] true false;
    styled_attrs [("style", "dashed"); ("color", "gray")] true false;
    styled_attrs [("style", "dashed"); ("color", "gray")] true false;
    plain_attrs; plain_attrs ]
  ∧ getitem "label" (styled_attrs [("label", "HTTPS")] true false) = Some "HTTPS"
  ∧ getitem "label" (styled_attrs [("label", "spawn")] true false) = Some "spawn"
  ∧ getitem "style" (styled_attrs [("style", "dotted")] true false) = Some "dotted"
  ∧ getitem "style" (styled_attrs [("style", "dashed"); ("color", "gray")] true false)
    = Some "dashed"
  ∧ getitem "color" (styled_attrs [("style", "dashed"); ("color", "gray")] true false)
    = Some "gray"
  ∧ (∀ k, k ≠ "dir" → getitem k plain_attrs = getitem k Edge_default_attrs).
Proof.
  split; [destruct eng; vm_compute; reflexivity|].
  assert (Hgiven : ∀ kw k v, (k = "label" ∨ k = "color" ∨ k = "style") →
            kwarg k kw = v → v ≠ "" → getitem k (styled_attrs kw true false) = Some v).
  { intros kw k v Hk <- Hv. by apply styled_attrs_given. }
  do 5 (split; [apply Hgiven; [auto | reflexivity | discriminate]|]).
  intros k Hk. rewrite plain_attrs_lookup.
  by destruct (String.eqb_spec k "dir").
Qed.

(** ** Running the script again *)

(** Two runs whose ids are distinct within each run end with equivalent
    graphs. *)
Lemma runs_equivalent `{Package} (e1 e2 : nat → string) (eng : bool)
    (fs1 fs2 : string → option file) (g1 g2 : Digraph) :
  NoDup (e1 <$> seq 0 15) →
  (∀ i j, i < 15 → j < 15 → e2 i = e2 j → i = j) →
  graph_of (final (run e1 eng fs1)) = Some g1 →
  graph_of (final (run e2 eng fs2)) = Some g2 →
  equivalent g1 g2.
Proof.
  intros Hnd1 Hinj2 Hg1 Hg2. exists (transport e1 e2 15). split.
  - intros x y Hx Hy Heq.
    pose proof (run_names e1 eng fs1 g1 Hg1) as Hnames. rewrite Forall_forall in Hnames.
    apply Hnames, list_elem_of_fmap in Hx as (i & -> & Hi).
    apply Hnames, list_elem_of_fmap in Hy as (j & -> & Hj).
    apply elem_of_seq in Hi, Hj.
    rewrite (transport_drawn e1 e2 15 i Hnd1), (transport_drawn e1 e2 15 j Hnd1) in Heq
      by lia.
    f_equal. apply Hinj2; [lia|lia|done].
  - pose proof (run_graph_renamed e1 e2 eng fs1 fs2 (transport e1 e2 15)) as Hren.
    rewrite Hg1, Hg2 in Hren. cbn [fmap option_fmap option_map] in Hren.
    assert (Some (rename_graph (transport e1 e2 15) g1) = Some g2) as [= ->];
      [|reflexivity].
    apply Hren. intros k Hk. exact (transport_drawn e1 e2 15 k Hnd1 Hk).
Qed.

Lemma NoDup_drawn_prefix (e : nat → string) (n m : nat) :
  (n ≤ m)%nat → NoDup (e <$> seq 0 m) → NoDup (e <$> seq 0 n).
Proof.
  intros Hnm Hnd. apply NoDup_fmap_2_strong; [|apply NoDup_seq].
  intros i j Hi Hj Heq. apply elem_of_seq in Hi, Hj.
  apply (entropy_inj e m); [done|lia|lia|done].
Qed.

Section Twice.
Context `{Package} (e : nat → string) (fs : string → option file).

Lemma twice_returns : returned (twice (boot e true fs)) = Some tt.
Proof. vm_compute. reflexivity. Qed.

(** The second run leaves the first diagram as the first run left it, and
    builds the graph a fresh run would build from the next fifteen ids. *)
Lemma twice_diagrams :
  length (diagrams (final (twice (boot e true fs)))) = 2
  ∧ diagrams (final (twice (boot e true fs))) !! 0 = diagrams (final (run e true fs)) !! 0
  ∧ d_dot <$> diagrams (final (twice (boot e true fs))) !! dref second_diagram =
    graph_of (final (run (λ k, e (15 + k)) true fs))
  ∧ graph_of (final (twice (boot e true fs))) = graph_of (final (run e true fs)).
Proof. split; [|split; [|split]]; vm_compute; reflexivity. Qed.

Lemma twice_image :
  files (final (twice (boot e true fs))) image_path =
  Image "png" <$> (d_dot <$> diagrams (final (twice (boot e true fs))) !! dref second_diagram).
Proof. vm_compute. reflexivity. Qed.

End Twice.

(** Running the script a second time in the same interpreter is safe.  With
    thirty distinct ids, the second run returns, allocates a second diagram
    and leaves the first diagram object as the first run left it; the graph
    of the second diagram is equivalent to the graph of the first and shares
    no node name with it; the image at the one output path is afterwards the
    rendering of the second graph. *)
Theorem second_run `{Package} (e : nat → string) (fs : string → option file) :
  NoDup (e <$> seq 0 30) →
  let w1 := final (run e true fs) in
  let w2 := final (twice (boot e true fs)) in
  returned (twice (boot e true fs)) = Some tt
  ∧ length (diagrams w2) = 2
  ∧ diagrams w2 !! 0 = diagrams w1 !! 0
  ∧ ∃ g1 g2 : Digraph,
      graph_of w2 = Some g1
      ∧ d_dot <$> diagrams w2 !! dref second_diagram = Some g2
      ∧ equivalent g1 g2
      ∧ (∀ x, x ∈ flat_map names_in (dg_body g1) → x ∉ flat_map names_in (dg_body g2))
      ∧ files w2 image_path = Some (Image "png" g2).
Proof.
  intros Hnd w1 w2. subst w1 w2.
  destruct (twice_diagrams e fs) as (Hlen & Hfirst & Hsecond & Hw2).
  pose proof (twice_image e fs) as Himage.
  split; [apply twice_returns|]. split; [exact Hlen|]. split; [exact Hfirst|].
  destruct (run_graph_is_some e true fs) as [g1 Hg1].
  destruct (run_graph_is_some (λ k, e (15 + k)) true fs) as [g2 Hg2].
  rewrite Hg1 in Hw2. rewrite Hg2 in Hsecond. rewrite Hsecond in Himage.
  exists g1, g2. split; [exact Hw2|]. split; [exact Hsecond|].
  assert (Hinj : ∀ i j, i < 30 → j < 30 → e i = e j → i = j)
    by (intros i j; apply (entropy_inj e 30 i j Hnd)).
  split; [|split; [|exact Himage]].
  - apply (runs_equivalent e (λ k, e (15 + k)) true fs fs g1 g2);
      [ | | exact Hg1 | exact Hg2].
    + apply (NoDup_drawn_prefix e 15 30); [lia | exact Hnd].
    + intros i j Hi Hj Heq. apply Hinj in Heq; lia.
  - intros x Hx1 Hx2.
    pose proof (run_names e true fs g1 Hg1) as Hn1. rewrite Forall_forall in Hn1.
    pose proof (run_names (λ k, e (15 + k)) true fs g2 Hg2) as Hn2.
    rewrite Forall_forall in Hn2.
    apply Hn1, list_elem_of_fmap in Hx1 as (i & -> & Hi).
    apply Hn2, list_elem_of_fmap in Hx2 as (j & Heq & Hj).
    apply elem_of_seq in Hi, Hj. apply Hinj in Heq; lia.
Qed.

Lemma second_run_witness :
  NoDup (hex_a <$> seq 0 30)
  ∧ returned (twice (H := sample) (boot hex_a true no_files)) = Some tt
  ∧ length (diagrams (final (twice (H := sample) (boot hex_a true no_files)))) = 2.
Proof.
  assert (Hnd : NoDup (hex_a <$> seq 0 30)).
  { apply (bool_decide_unpack _). vm_compute. exact I. }
  split; [exact Hnd|].
  destruct (second_run (H := sample) hex_a no_files Hnd) as (Hret & Hlen & _).
  split; [exact Hret | exact Hlen].
Defined.

(** ** Leaving the [with Diagram] block by an exception *)

Lemma append_neq (s t : string) : t ≠ "" → s +:+ t ≠ s.
Proof.
  intros Ht. induction s as [|c s IH]; simpl; [exact Ht|].
  intros [= Heq]. by apply IH.
Qed.

Section Leaving.
Context `{Package}.

(** [Diagram.__exit__] on a diagram of the heap whose graph has the file
    name of the diagram, with the engine installed: the image is written,
    the DOT source is written and removed, the current diagram is reset. *)
Lemma Diagram_exit_renders (r : DiagramRef) (d : Diagrams.Diagram) (w : world) :
  diagrams w !! dref r = Some d →
  dg_filename (d_dot d) = d_filename d →
  engine_installed w = true →
  Diagram_exit r w =
  Ok tt (with_ctx_diagram None
           (with_files (λ fs, remove_file (d_filename d)
                                (write_file (d_filename d +:+ "." +:+ d_outformat d)
                                            (Image (d_outformat d) (d_dot d))
                                            (write_file (d_filename d) (DotSource (d_dot d)) fs)))
                       w)).
Proof.
  intros Hd Hname Heng.
  unfold Diagram_exit, Diagram_render, Digraph_render, read_diagram, os_remove, setdiagram,
    gets, modify, mbind, M_bind.
  rewrite Hd. cbn [engine_installed with_files diagrams files]. rewrite Heng.
  change (diagrams (with_files ?f (with_files ?g w))) with (diagrams w).
  rewrite Hd, Hname. cbn [files with_files d_filename].
  unfold write_file at 1.
  destruct (String.eqb_spec (d_filename d) (d_filename d +:+ "." +:+ d_outformat d))
    as [Heq|_].
  { exfalso. symmetry in Heq. revert Heq. apply append_neq. discriminate. }
  unfold write_file at 1. rewrite String.eqb_refl. reflexivity.
Qed.

(** The [with] statement when its body raises and [__exit__] returns. *)
Lemma With_body_raises {T : Type} `{ContextManager T} (ctor : M T) (body : M unit)
    (obj : T) (w w1 w2 w3 w4 : world) (err : exn) :
  ctor w = Ok obj w1 → enter obj w1 = Ok tt w2 → body w2 = Raise err w3 →
  exit obj w3 = Ok tt w4 →
  With ctor body w = Raise err w4.
Proof. intros Hc He Hb Hx. unfold With. by rewrite Hc, He, Hb, Hx. Qed.

(** Line 20 in any world: the diagram is allocated at the end of the heap and
    made the current one. *)
Lemma Diagram_entered (w : world) :
  ∃ w1, Diagram w = Ok (DRef (length (diagrams w))) w1
      ∧ Diagram_enter (DRef (length (diagrams w))) w1 = Ok tt (entered w).
Proof.
  destruct (Diagram_new_graph_attr "OpenClaw Security Architecture" "" "TB" "ortho" "png"
              false false false graph_attr [] [] w eq_refl eq_refl eq_refl)
    as (d0 & Hnew & _).
  exists (with_diagrams (λ l, l ++ [d0]) w).
  split; [exact Hnew|].
  unfold entered, mbind, M_bind, Diagram. rewrite Hnew. reflexivity.
Qed.

End Leaving.

(** An exception in the body of [with Diagram(...)] does not stop the
    rendering.  In any world, if the body raises and the diagram of line 20
    is still on the heap with its file name, and the engine is installed,
    the statement raises the same exception after [__exit__] has run: the
    image of the graph built so far is written, the DOT source is removed
    and no diagram is current any more. *)
Theorem image_written_when_body_raises `{Package} (body : M unit) (w w3 : world)
    (err : exn) (d : Diagrams.Diagram) :
  body (entered w) = Raise err w3 →
  diagrams w3 !! length (diagrams w) = Some d →
  dg_filename (d_dot d) = d_filename d →
  engine_installed w3 = true →
  ∃ w4, With Diagram body w = Raise err w4
      ∧ files w4 (d_filename d +:+ "." +:+ d_outformat d)
        = Some (Image (d_outformat d) (d_dot d))
      ∧ files w4 (d_filename d) = None
      ∧ ctx_diagram w4 = None
      ∧ diagrams w4 = diagrams w3.
Proof.
  intros Hbody Hd Hname Heng.
  destruct (Diagram_entered w) as (w1 & Hctor & Henter).
  pose proof (Diagram_exit_renders (DRef (length (diagrams w))) d w3 Hd Hname Heng) as Hexit.
  eexists. split.
  { exact (With_body_raises Diagram body _ w w1 _ w3 _ err Hctor Henter Hbody Hexit). }
  cbn [files ctx_diagram diagrams with_ctx_diagram with_files].
  split; [|split; [|split; reflexivity]].
  - unfold remove_file.
    destruct (String.eqb_spec (d_filename d +:+ "." +:+ d_outformat d) (d_filename d))
      as [Heq|_].
    { exfalso. revert Heq. apply append_neq. discriminate. }
    unfold write_file. by rewrite String.eqb_refl.
  - unfold remove_file. by rewrite String.eqb_refl.
Qed.

(** The theorem at the data flows run without the declarations: the block
    raises [NameError], and the image of the graph without nodes is left. *)
Lemma image_written_when_body_raises_witness :
  block (data_flows (H := sample)) inside_world = Raise (NameError "user") inside_world
  ∧ diagrams inside_world !! length (diagrams (boot hex_a true no_files)) = Some inside_diagram
  ∧ dg_filename (d_dot inside_diagram) = d_filename inside_diagram
  ∧ engine_installed inside_world = true
  ∧ ∃ w4, With (Diagram (H := sample)) (block (data_flows (H := sample)))
               (boot hex_a true no_files) = Raise (NameError "user") w4
        ∧ files w4 (d_filename inside_diagram +:+ "." +:+ d_outformat inside_diagram)
          = Some (Image (d_outformat inside_diagram) (d_dot inside_diagram)).
Proof.
  assert (Hbody : block (data_flows (H := sample)) inside_world
                  = Raise (NameError "user") inside_world) by (vm_compute; reflexivity).
  assert (Hd : diagrams inside_world !! length (diagrams (boot hex_a true no_files))
               = Some inside_diagram) by (vm_compute; reflexivity).
  assert (Hname : dg_filename (d_dot inside_diagram) = d_filename inside_diagram)
    by (vm_compute; reflexivity).
  assert (Heng : engine_installed inside_world = true) by (vm_compute; reflexivity).
  split; [exact Hbody|]. split; [exact Hd|]. split; [exact Hname|]. split; [exact Heng|].
  destruct (image_written_when_body_raises (H := sample) (block data_flows)
              (boot hex_a true no_files) inside_world (NameError "user") inside_diagram
              Hbody Hd Hname Heng) as (w4 & Hraise & Himage & _).
  exists w4. split; [exact Hraise | exact Himage].
Defined.
